(** * dsnote: the DeepSpeech/STT engine wrapper

    A shallow embedding of [src/deepspeech_wrapper.cpp]: the per-frame
    processing step [process_buff], the decode step [decode_speech] and the
    stream life cycle ([create_ds_stream], [free_ds_stream], [reset_impl]).

    The C++ object is a record [engine]; a member function is a computation
    in the monad [M], which threads the object, records the calls made to
    the collaborators (backend library, VAD, host callbacks, logger) in a
    trace and models a C++ exception: the object keeps the mutations made
    before the [throw], as it does in C++. *)

From Stdlib Require Import String List Bool ZArith Lia.
From ExtLib Require Import Structures.Monad.
Import ListNotations.
Import MonadNotation.
Local Open Scope monad_scope.
Local Open Scope string_scope.
Local Open Scope list_scope.

Set Implicit Arguments.

(** ** Data model *)

(** [speech_mode_t], [speech_detection_status_t], [flush_t] and
    [samples_process_result_t] of [engine_wrapper]. *)
Inductive speech_mode_t := manual | single_sentence | automatic.

Inductive speech_detection_status_t := no_speech | speech_detected | decoding.

(** [flush_t::eof] is [eof_flush] here, [eof] being the flag of the frame. *)
Inductive flush_t := regular | eof_flush.

Inductive samples_process_result_t := wait_for_samples | no_samples_needed.

(** An audio sample ([int16_t] in [ds_buf_t]); only sequences of samples
    are moved around, no arithmetic is done on them. *)
Definition sample := Z.
Definition ds_buf_t := list sample.

(** A non-null native pointer ([ModelState*], [StreamingState*]);
    [option handle] is a nullable one, [None] being [nullptr]. *)
Definition handle := N.

(** [m_in_buf]: the frame deposited by the producer. *)
Record in_buf_t := mk_in_buf {
  buf : ds_buf_t;
  sof : bool;
  eof : bool
}.

Definition size (b : in_buf_t) : nat := length (buf b).

(** The members of [deepspeech_wrapper] (and of its base [engine_wrapper])
    that the functions below read or write. *)
Record engine := mk_engine {
  m_speech_mode : speech_mode_t;
  m_in_buf : in_buf_t;
  m_speech_buf : ds_buf_t;
  m_ds_model : option handle;
  m_ds_stream : option handle;
  m_intermediate_text : option string;
  m_speech_detection_status : speech_detection_status_t;
  m_speech_started : bool
}.

(** What the collaborators answer during one call: the frame claim, the
    VAD, the sentence timer, the shutdown flag set by another thread, and
    the backend library.  Each of them is asked at most once per
    [process_buff]. *)
Record env := mk_env {
  lock_ok : bool;                 (* lock_buff_for_processing() *)
  vad_out : ds_buf_t;             (* m_vad.remove_silence(...) *)
  timed_out : bool;               (* sentence_timer_timed_out() *)
  exit_requested : bool;          (* m_thread_exit_requested *)
  create_status : Z;              (* return value of STT_CreateStream *)
  create_handle : option handle;  (* what STT_CreateStream leaves in m_ds_stream *)
  decoded : string                (* STT_IntermediateDecode / STT_FinishStream *)
}.

(** The [LOGD] lines of the file. *)
Inductive log_t :=
| log_process_samples (mode : speech_mode_t) (in_size speech_size : nat)
                      (sof eof : bool)
| log_vad_speech
| log_vad_no_speech
| log_sentence_timeout
| log_speech_frame (samples : nat) (final : bool)
| log_decoding_started
| log_decoded
| log_create_failed.

(** The calls that leave the object. *)
Inductive event :=
(* backend library, through m_ds_api *)
| STT_FreeStream (s : option handle)
| STT_CreateStream (m : option handle)
| STT_FeedAudioContent (s : option handle) (b : ds_buf_t)
| STT_IntermediateDecode (s : option handle)
| STT_FinishStream (s : option handle)
| STT_FreeString (cstr : string)
(* VAD and sentence timer *)
| vad_reset
| vad_remove_silence (b : ds_buf_t)
| start_time_reset
| restart_timer
(* host callbacks *)
| sentence_timeout
| speech_detection_status_changed (st : speech_detection_status_t)
| intermediate_text_decoded (t : string)
| on_flush (k : flush_t)
(* frame release and logger *)
| buf_released
| LOGD (l : log_t).

(** ** The monad *)

Inductive result (A : Type) :=
| Ret (a : A)
| Throw (what : string).
Arguments Throw {A} what.

Definition M (A : Type) : Type :=
  env -> engine -> result A * engine * list event.

Definition M_ret {A} (a : A) : M A := fun _ s => (Ret a, s, []).

Definition M_bind {A B} (m : M A) (f : A -> M B) : M B :=
  fun e s =>
    match m e s with
    | (Ret a, s1, t1) =>
        let '(r, s2, t2) := f a e s1 in (r, s2, t1 ++ t2)
    | (Throw w, s1, t1) => (Throw w, s1, t1)
    end.

#[global] Instance Monad_M : Monad M :=
  {| ret := @M_ret; bind := @M_bind |}.

Definition get : M engine := fun _ s => (Ret s, s, []).
Definition ask : M env := fun e s => (Ret e, s, []).
Definition modify (f : engine -> engine) : M unit :=
  fun _ s => (Ret tt, f s, []).
Definition emit (ev : event) : M unit := fun _ s => (Ret tt, s, [ev]).
Definition throw {A} (what : string) : M A := fun _ s => (Throw what, s, []).
Definition when (b : bool) (m : M unit) : M unit := if b then m else ret tt.

(** Field updates. *)
Definition set_in_buf (b : in_buf_t) (s : engine) : engine :=
  mk_engine (m_speech_mode s) b (m_speech_buf s) (m_ds_model s)
            (m_ds_stream s) (m_intermediate_text s)
            (m_speech_detection_status s) (m_speech_started s).

Definition set_speech_buf (b : ds_buf_t) (s : engine) : engine :=
  mk_engine (m_speech_mode s) (m_in_buf s) b (m_ds_model s)
            (m_ds_stream s) (m_intermediate_text s)
            (m_speech_detection_status s) (m_speech_started s).

Definition set_ds_stream (h : option handle) (s : engine) : engine :=
  mk_engine (m_speech_mode s) (m_in_buf s) (m_speech_buf s) (m_ds_model s)
            h (m_intermediate_text s)
            (m_speech_detection_status s) (m_speech_started s).

Definition set_text (t : option string) (s : engine) : engine :=
  mk_engine (m_speech_mode s) (m_in_buf s) (m_speech_buf s) (m_ds_model s)
            (m_ds_stream s) t
            (m_speech_detection_status s) (m_speech_started s).

Definition set_status (st : speech_detection_status_t) (s : engine) : engine :=
  mk_engine (m_speech_mode s) (m_in_buf s) (m_speech_buf s) (m_ds_model s)
            (m_ds_stream s) (m_intermediate_text s)
            st (m_speech_started s).

(** Decidable equalities used by the code's comparisons. *)
Definition mode_eqb (a b : speech_mode_t) : bool :=
  match a, b with
  | manual, manual | single_sentence, single_sentence
  | automatic, automatic => true
  | _, _ => false
  end.

Definition status_eqb (a b : speech_detection_status_t) : bool :=
  match a, b with
  | no_speech, no_speech | speech_detected, speech_detected
  | decoding, decoding => true
  | _, _ => false
  end.

(** [std::vector::empty], [std::string::empty], pointer and
    [std::optional] truth tests. *)
Definition empty {A} (l : list A) : bool :=
  match l with [] => true | _ :: _ => false end.

Definition str_empty (t : string) : bool :=
  match t with EmptyString => true | String _ _ => false end.

Definition is_set {A} (o : option A) : bool :=
  match o with Some _ => true | None => false end.

(** [m_intermediate_text && !m_intermediate_text->empty()] *)
Definition has_text (o : option string) : bool :=
  match o with Some t => negb (str_empty t) | None => false end.

(** [m_intermediate_text != result], between a [std::optional<std::string>]
    and a [std::string]: an empty optional differs from every string. *)
Definition opt_neq (o : option string) (r : string) : bool :=
  match o with Some t => negb (String.eqb t r) | None => true end.

(** ** Members of the base class [engine_wrapper]

    [engine_wrapper.cpp] is not part of the sources at hand; the members
    that [deepspeech_wrapper.cpp] calls are modelled below. *)

(** Modelled from the spec: [engine_wrapper::lock_buff_for_processing] is
    missing; "returns whether a frame is available and exclusively marks it
    claimed, non-blocking".  Availability depends on the producer thread:
    it is an answer of the environment. *)
Definition lock_buff_for_processing : M bool :=
  e <- ask ;; ret (lock_ok e).

(** Modelled from the spec: [in_buf_t::clear] is missing; it "clears the
    frame". *)
Definition in_buf_clear : M unit :=
  modify (set_in_buf (mk_in_buf [] false false)).

(** Modelled from the spec: [engine_wrapper::free_buf] is missing;
    "clears the frame and claim, returns buffer to producer
    availability". *)
Definition free_buf : M unit :=
  in_buf_clear ;; emit buf_released.

(** Modelled from the spec: [engine_wrapper::set_speech_detection_status]
    is missing; the status is a "single current value, mutated only by the
    Driver, observable via callback on every transition". *)
Definition set_speech_detection_status (st : speech_detection_status_t)
  : M unit :=
  s <- get ;;
  if status_eqb (m_speech_detection_status s) st then ret tt
  else modify (set_status st) ;; emit (speech_detection_status_changed st).

(** Modelled from the spec: [engine_wrapper::set_intermediate_text] is
    missing; it records the text as the last emitted one and hands it to
    the host through [on_intermediate_text]. *)
Definition set_intermediate_text (t : string) : M unit :=
  modify (set_text (Some t)) ;; emit (intermediate_text_decoded t).

(** Modelled from the spec: [engine_wrapper::flush] is missing; it
    "signals flush" to the host, [on_flush(kind)]. *)
Definition flush (k : flush_t) : M unit := emit (on_flush k).

(** Modelled from the spec: [engine_wrapper::restart_sentence_timer] is
    missing; the timer is "reset on any detected speech". *)
Definition restart_sentence_timer : M unit := emit restart_timer.

(** Modelled from the spec: [engine_wrapper::sentence_timer_timed_out] is
    missing; a "read-only query for timed out", answered by the clock. *)
Definition sentence_timer_timed_out : M bool :=
  e <- ask ;; ret (timed_out e).

(** [m_vad.remove_silence(m_in_buf.buf.data(), m_in_buf.size)]: the VAD is
    an external collaborator; its answer comes from the environment. *)
Definition remove_silence : M ds_buf_t :=
  s <- get ;;
  emit (vad_remove_silence (buf (m_in_buf s))) ;;
  e <- ask ;; ret (vad_out e).

(** [m_thread_exit_requested], written by another thread. *)
Definition thread_exit_requested : M bool :=
  e <- ask ;; ret (exit_requested e).

(** ** [deepspeech_wrapper.cpp] *)

(** [deepspeech_wrapper::free_ds_stream] *)
Definition free_ds_stream : M unit :=
  s <- get ;;
  when (is_set (m_ds_stream s))
       (emit (STT_FreeStream (m_ds_stream s)) ;;
        modify (set_ds_stream None)).

(** [deepspeech_wrapper::create_ds_stream] *)
Definition create_ds_stream : M unit :=
  s <- get ;;
  if is_set (m_ds_stream s) || negb (is_set (m_ds_model s)) then ret tt
  else
    e <- ask ;;
    emit (STT_CreateStream (m_ds_model s)) ;;
    modify (set_ds_stream (create_handle e)) ;;
    s' <- get ;;
    if negb (create_status e =? 0)%Z || negb (is_set (m_ds_stream s')) then
      emit (LOGD log_create_failed) ;;
      throw "failed to create ds stream"
    else ret tt.

(** [deepspeech_wrapper::reset_impl] *)
Definition reset_impl : M unit :=
  modify (set_speech_buf []) ;;
  free_ds_stream.

(** The lambda of [decode_speech] that yields [cstr]: an intermediate
    decode, or the end of the stream, after which the member pointer is
    nulled.  The backend answers with a string here; [decode_cstr_of]
    below is the lambda over a backend whose answer may be the null
    pointer. *)
Definition decode_cstr (eof : bool) : M string :=
  s <- get ;;
  e <- ask ;;
  if negb eof then
    emit (STT_IntermediateDecode (m_ds_stream s)) ;;
    ret (decoded e)
  else
    emit (STT_FinishStream (m_ds_stream s)) ;;
    modify (set_ds_stream None) ;;
    ret (decoded e).

(** [deepspeech_wrapper::decode_speech] *)
Definition decode_speech (buf : ds_buf_t) (eof : bool) : M unit :=
  s <- get ;;
  if negb (is_set (m_ds_stream s)) && eof then ret tt
  else
    emit (LOGD log_decoding_started) ;;
    create_ds_stream ;;
    s1 <- get ;;
    emit (STT_FeedAudioContent (m_ds_stream s1) buf) ;;
    cstr <- decode_cstr eof ;;
    let result := cstr in
    emit (STT_FreeString cstr) ;;
    emit (LOGD log_decoded) ;;
    s2 <- get ;;
    when (negb (is_set (m_intermediate_text s2))
          || opt_neq (m_intermediate_text s2) result)
         (set_intermediate_text result).

(** The lambda of [process_buff] that yields [final_decode]. *)
Definition final_decode (eof : bool) (mode : speech_mode_t)
           (text : option string) (vad_status : bool) : bool :=
  if eof then true
  else if mode_eqb mode single_sentence && is_set text
          && negb (match text with Some t => str_empty t | None => true end)
          && negb vad_status then true
  else if mode_eqb mode automatic && negb vad_status then true
  else false.

(** [deepspeech_wrapper::process_buff] *)
Definition process_buff : M samples_process_result_t :=
  locked <- lock_buff_for_processing ;;
  if negb locked then ret wait_for_samples
  else
    s0 <- get ;;
    let eof := eof (m_in_buf s0) in
    let sof := sof (m_in_buf s0) in
    emit (LOGD (log_process_samples (m_speech_mode s0) (size (m_in_buf s0))
                                    (length (m_speech_buf s0)) sof eof)) ;;
    when sof
         (modify (set_speech_buf []) ;;
          emit start_time_reset ;;
          emit vad_reset ;;
          free_ds_stream ;;
          create_ds_stream) ;;
    vad_buf <- remove_silence ;;
    in_buf_clear ;;
    let vad_status := negb (empty vad_buf) in
    in_buf_clear ;;
    (if vad_status then
       emit (LOGD log_vad_speech) ;;
       s <- get ;;
       when (negb (mode_eqb (m_speech_mode s) manual))
            (set_speech_detection_status speech_detected) ;;
       modify (fun s => set_speech_buf (m_speech_buf s ++ vad_buf) s) ;;
       restart_sentence_timer
     else
       emit (LOGD log_vad_no_speech) ;;
       s <- get ;;
       timeout <- (if mode_eqb (m_speech_mode s) single_sentence
                      && empty (m_speech_buf s)
                      && (negb (is_set (m_intermediate_text s))
                          || match m_intermediate_text s with
                             | Some t => str_empty t
                             | None => false
                             end)
                   then sentence_timer_timed_out else ret false) ;;
       when timeout
            (emit (LOGD log_sentence_timeout) ;;
             emit sentence_timeout)) ;;
    exit <- thread_exit_requested ;;
    if exit then
      free_buf ;;
      ret no_samples_needed
    else
      s1 <- get ;;
      let final_decode :=
        final_decode eof (m_speech_mode s1) (m_intermediate_text s1)
                     vad_status in
      let old_status := m_speech_detection_status s1 in
      when (final_decode && negb (mode_eqb (m_speech_mode s1) automatic))
           (set_speech_detection_status decoding) ;;
      s2 <- get ;;
      emit (LOGD (log_speech_frame (length (m_speech_buf s2)) final_decode)) ;;
      decode_speech (m_speech_buf s2) final_decode ;;
      modify (set_speech_buf []) ;;
      s3 <- get ;;
      (if final_decode
          || (mode_eqb (m_speech_mode s3) manual && negb (m_speech_started s3))
       then set_speech_detection_status no_speech
       else set_speech_detection_status old_status) ;;
      when final_decode
           (flush (if negb eof && mode_eqb (m_speech_mode s3) automatic
                   then regular else eof_flush)) ;;
      free_buf ;;
      ret wait_for_samples.

(** ** Observations *)

Definition result_of {A} (o : result A * engine * list event) : result A :=
  fst (fst o).
Definition state_of {A} (o : result A * engine * list event) : engine :=
  snd (fst o).
Definition trace_of {A} (o : result A * engine * list event) : list event :=
  snd o.

(** The flushes signalled to the host, in order. *)
Fixpoint flushes (tr : list event) : list flush_t :=
  match tr with
  | [] => []
  | on_flush k :: tr => k :: flushes tr
  | _ :: tr => flushes tr
  end.

(** The intermediate texts handed to the host, in order. *)
Fixpoint texts (tr : list event) : list string :=
  match tr with
  | [] => []
  | intermediate_text_decoded t :: tr => t :: texts tr
  | _ :: tr => texts tr
  end.

(** The number of [sentence_timeout] callbacks. *)
Fixpoint timeouts (tr : list event) : nat :=
  match tr with
  | [] => 0
  | sentence_timeout :: tr => S (timeouts tr)
  | _ :: tr => timeouts tr
  end.

(** The buffers fed to the backend, with the stream they were fed to. *)
Fixpoint fed (tr : list event) : list (option handle * ds_buf_t) :=
  match tr with
  | [] => []
  | STT_FeedAudioContent h b :: tr => (h, b) :: fed tr
  | _ :: tr => fed tr
  end.

(** The value of [final_decode] that the step computed, as its log line
    "speech frame: samples=..., final=..." shows it; [None] when the step
    left before computing it. *)
Fixpoint logged_final (tr : list event) : option bool :=
  match tr with
  | [] => None
  | LOGD (log_speech_frame _ fd) :: _ => Some fd
  | _ :: tr => logged_final tr
  end.

(** The string that the backend decoded, as handed back to
    [STT_FreeString]; [None] when no decode took place. *)
Fixpoint decoded_string (tr : list event) : option string :=
  match tr with
  | [] => None
  | STT_FreeString r :: _ => Some r
  | _ :: tr => decoded_string tr
  end.

(** [STT_CreateStream] reported an error or left a null stream. *)
Definition create_fails (e : env) : bool :=
  negb (create_status e =? 0)%Z || negb (is_set (create_handle e)).

(** ** The processing step, block by block

    The body of [process_buff] between its exits: the start-of-frame
    block, the VAD block, and the decode block that follows the shutdown
    check.  [process_buff_is_seq] shows that [process_buff] is their
    sequence. *)
Definition start_block : M unit :=
  modify (set_speech_buf []) ;;
  emit start_time_reset ;;
  emit vad_reset ;;
  free_ds_stream ;;
  create_ds_stream.

Definition vad_block : M bool :=
  vad_buf <- remove_silence ;;
  in_buf_clear ;;
  in_buf_clear ;;
  (if negb (empty vad_buf) then
     emit (LOGD log_vad_speech) ;;
     s <- get ;;
     when (negb (mode_eqb (m_speech_mode s) manual))
          (set_speech_detection_status speech_detected) ;;
     modify (fun s => set_speech_buf (m_speech_buf s ++ vad_buf) s) ;;
     restart_sentence_timer
   else
     emit (LOGD log_vad_no_speech) ;;
     s <- get ;;
     timeout <- (if mode_eqb (m_speech_mode s) single_sentence
                    && empty (m_speech_buf s)
                    && (negb (is_set (m_intermediate_text s))
                        || match m_intermediate_text s with
                           | Some t => str_empty t
                           | None => false
                           end)
                 then sentence_timer_timed_out else ret false) ;;
     when timeout
          (emit (LOGD log_sentence_timeout) ;;
           emit sentence_timeout)) ;;
  ret (negb (empty vad_buf)).

Definition decode_block (eof vad_status : bool)
  : M samples_process_result_t :=
  s1 <- get ;;
  let final_decode :=
    final_decode eof (m_speech_mode s1) (m_intermediate_text s1)
                 vad_status in
  let old_status := m_speech_detection_status s1 in
  when (final_decode && negb (mode_eqb (m_speech_mode s1) automatic))
       (set_speech_detection_status decoding) ;;
  s2 <- get ;;
  emit (LOGD (log_speech_frame (length (m_speech_buf s2)) final_decode)) ;;
  decode_speech (m_speech_buf s2) final_decode ;;
  modify (set_speech_buf []) ;;
  s3 <- get ;;
  (if final_decode
      || (mode_eqb (m_speech_mode s3) manual && negb (m_speech_started s3))
   then set_speech_detection_status no_speech
   else set_speech_detection_status old_status) ;;
  when final_decode
       (flush (if negb eof && mode_eqb (m_speech_mode s3) automatic
               then regular else eof_flush)) ;;
  free_buf ;;
  ret wait_for_samples.

Definition process_buff_seq : M samples_process_result_t :=
  locked <- lock_buff_for_processing ;;
  if negb locked then ret wait_for_samples
  else
    s0 <- get ;;
    emit (LOGD (log_process_samples (m_speech_mode s0) (size (m_in_buf s0))
                  (length (m_speech_buf s0))
                  (sof (m_in_buf s0)) (eof (m_in_buf s0)))) ;;
    when (sof (m_in_buf s0)) start_block ;;
    vad_status <- vad_block ;;
    exit <- thread_exit_requested ;;
    if exit then
      free_buf ;;
      ret no_samples_needed
    else decode_block (eof (m_in_buf s0)) vad_status.

(** *** The blocks in closed form *)

(** The start-of-frame block ends in a [throw] when the fresh stream
    cannot be created. *)
Definition sof_throws (e : env) (s : engine) : bool :=
  sof (m_in_buf s) && is_set (m_ds_model s) && create_fails e.

Definition start_state (e : env) (s : engine) : engine :=
  set_ds_stream (if is_set (m_ds_model s) then create_handle e else None)
                (set_speech_buf [] s).

Definition start_trace (e : env) (s : engine) : list event :=
  [start_time_reset; vad_reset]
  ++ (if is_set (m_ds_stream s) then [STT_FreeStream (m_ds_stream s)] else [])
  ++ (if is_set (m_ds_model s)
      then STT_CreateStream (m_ds_model s)
           :: (if create_fails e then [LOGD log_create_failed] else [])
      else []).

(** The condition under which the VAD block calls [sentence_timeout]. *)
Definition sentence_timeout_due (e : env) (s : engine) : bool :=
  mode_eqb (m_speech_mode s) single_sentence
  && empty (m_speech_buf s)
  && negb (has_text (m_intermediate_text s))
  && timed_out e.

Definition vad_state (e : env) (s : engine) : engine :=
  set_in_buf (mk_in_buf [] false false)
    (if negb (empty (vad_out e))
     then set_speech_buf (m_speech_buf s ++ vad_out e)
            (if mode_eqb (m_speech_mode s) manual then s
             else set_status speech_detected s)
     else s).

Definition vad_trace (e : env) (s : engine) : list event :=
  vad_remove_silence (buf (m_in_buf s))
  :: (if negb (empty (vad_out e))
      then LOGD log_vad_speech
           :: (if negb (mode_eqb (m_speech_mode s) manual)
                  && negb (status_eqb (m_speech_detection_status s)
                                      speech_detected)
               then [speech_detection_status_changed speech_detected]
               else [])
           ++ [restart_timer]
      else LOGD log_vad_no_speech
           :: (if sentence_timeout_due e s
               then [LOGD log_sentence_timeout; sentence_timeout]
               else [])).

(** The state in which the VAD block starts, and the trace up to it. *)
Definition start_of (e : env) (s : engine) : engine :=
  if sof (m_in_buf s) then start_state e s else s.

Definition trace_to_vad (e : env) (s : engine) : list event :=
  LOGD (log_process_samples (m_speech_mode s) (size (m_in_buf s))
          (length (m_speech_buf s)) (sof (m_in_buf s)) (eof (m_in_buf s)))
  :: (if sof (m_in_buf s) then start_trace e s else []).

(** What the decode block logs, flushes and feeds, and the state it
    leaves, when it returns and when the decode throws. *)
Record decode_block_post (eof vad_status : bool) (s : engine)
       (out : result samples_process_result_t * engine * list event)
  : Prop := {
  post_logged :
    logged_final (trace_of out)
    = Some (final_decode eof (m_speech_mode s) (m_intermediate_text s)
                         vad_status);
  post_flushes :
    flushes (trace_of out)
    = (if final_decode eof (m_speech_mode s) (m_intermediate_text s)
                       vad_status
       then [if negb eof && mode_eqb (m_speech_mode s) automatic
             then regular else eof_flush]
       else []);
  post_timeouts : timeouts (trace_of out) = 0;
  post_fed :
    fed (trace_of out) = []
    \/ exists h, fed (trace_of out) = [(h, m_speech_buf s)];
  post_mode : m_speech_mode (state_of out) = m_speech_mode s;
  post_returns :
    result_of out = Ret wait_for_samples ->
    m_speech_buf (state_of out) = []
    /\ m_speech_detection_status (state_of out)
       = if final_decode eof (m_speech_mode s) (m_intermediate_text s)
                         vad_status
            || (mode_eqb (m_speech_mode s) manual
                && negb (m_speech_started s))
         then no_speech else m_speech_detection_status s;
  post_throws :
    result_of out <> Ret wait_for_samples ->
    m_speech_buf (state_of out) = m_speech_buf s
    /\ m_speech_detection_status (state_of out)
       = m_speech_detection_status s
}.

(** ** Buffer and status, idle periods, reset *)

(** The utterance buffer is empty, or the status is [speech_detected] or
    [decoding]. *)
Definition buf_status_ok (s : engine) : bool :=
  empty (m_speech_buf s)
  || status_eqb (m_speech_detection_status s) speech_detected
  || status_eqb (m_speech_detection_status s) decoding.

(** The conditions of the idle period, for the step that processes the
    frame held by [s]: the step reaches the VAD, which finds no speech;
    the mode is [single_sentence], the utterance buffer is empty, there is
    no non-empty intermediate text and the sentence timer has expired. *)
Definition idle_step (e : env) (s : engine) : bool :=
  lock_ok e && negb (sof_throws e s)
  && empty (vad_out e)
  && sentence_timeout_due e (start_of e s).

(** Modelled from the spec: the processing loop of [engine_wrapper] is
    missing; "one processing context (single worker) runs the Driver's
    steps sequentially", each step on the frame that the producer
    deposited. *)
Fixpoint run (steps : list (in_buf_t * env)) (s : engine)
  : engine * list event :=
  match steps with
  | [] => (s, [])
  | (f, e) :: rest =>
      let out := process_buff e (set_in_buf f s) in
      let '(s', t') := run rest (state_of out) in
      (s', trace_of out ++ t')
  end.

(** Every step of the run is idle. *)
Fixpoint idle_run (steps : list (in_buf_t * env)) (s : engine) : bool :=
  match steps with
  | [] => true
  | (f, e) :: rest =>
      idle_step e (set_in_buf f s)
      && idle_run rest (state_of (process_buff e (set_in_buf f s)))
  end.

(** The number of idle steps of the run. *)
Fixpoint idle_steps (steps : list (in_buf_t * env)) (s : engine) : nat :=
  match steps with
  | [] => 0
  | (f, e) :: rest =>
      (if idle_step e (set_in_buf f s) then 1 else 0)
      + idle_steps rest (state_of (process_buff e (set_in_buf f s)))
  end.

(** Modelled from the spec: [engine_wrapper::reset] is missing; "reset
    (clear buffer + destroy session + reset VAD/timer)", with the
    observable effect "empty buffer, no session, cleared intermediate
    text".  The buffer and the session are the part of [reset_impl],
    which it calls. *)
Definition reset : M unit :=
  emit vad_reset ;;
  emit start_time_reset ;;
  modify (set_text None) ;;
  reset_impl.

(** ** Sample engines and environments *)

(** An engine whose model is loaded, before any frame was processed. *)
Definition fresh_engine (mode : speech_mode_t) : engine :=
  mk_engine mode (mk_in_buf [] false false) [] (Some 1%N) None None
            no_speech false.

(** A backend that creates stream [7] and decodes ["hello"]; the frame is
    available, the VAD hears [vad], the timer has not expired. *)
Definition env_ok (vad : ds_buf_t) : env :=
  mk_env true vad false false 0 (Some 7%N) "hello".

(** An engine whose model was never created, with one sample waiting. *)
Definition engine_without_model : engine :=
  mk_engine manual (mk_in_buf [] false false) [5%Z] None None None
            no_speech false.

(** A backend whose [STT_CreateStream] reports error 1 and no stream. *)
Definition env_create_error : env :=
  mk_env true [1%Z] false false 1 None "".

(** The second frame of an utterance in [automatic] mode: silence. *)
Definition engine_mid_utterance : engine :=
  mk_engine automatic (mk_in_buf [0%Z] false false) [] (Some 1%N)
            (Some 7%N) (Some "hello") speech_detected false.

(** [manual] mode, after an utterance was finalised: no stream, status
    [no_speech]; the next frame, with speech in it, has been deposited. *)
Definition engine_after_final : engine :=
  mk_engine manual (mk_in_buf [1%Z; 0%Z] false false) [] (Some 1%N) None None
            no_speech false.

(** The VAD hears speech while a shutdown is requested. *)
Definition env_shutdown : env :=
  mk_env true [1%Z] false true 0 (Some 7%N) "".

(** Single-sentence mode, nothing said yet: stream open, buffer empty, no
    intermediate text. *)
Definition engine_listening : engine :=
  mk_engine single_sentence (mk_in_buf [] false false) [] (Some 1%N)
            (Some 7%N) None no_speech false.

(** Silence, with the sentence timer expired; the backend has nothing to
    decode. *)
Definition env_idle : env := mk_env true [] true false 0 (Some 7%N) "".

Definition silent_frame : in_buf_t := mk_in_buf [0%Z; 0%Z] false false.

(** The first frame of an utterance: start-of-frame marker, speech. *)
Definition first_frame : in_buf_t := mk_in_buf [3%Z; 4%Z] true false.

(** The last frame of a stream: end-of-frame marker, silence. *)
Definition last_frame : in_buf_t := mk_in_buf [0%Z] false true.

(** ** More observations *)

(** The number of frame releases. *)
Fixpoint released (tr : list event) : nat :=
  match tr with
  | [] => 0
  | buf_released :: tr => S (released tr)
  | _ :: tr => released tr
  end.

(** The streams handed to [STT_FreeStream], in order. *)
Fixpoint frees (tr : list event) : list (option handle) :=
  match tr with
  | [] => []
  | STT_FreeStream h :: tr => h :: frees tr
  | _ :: tr => frees tr
  end.

(** The number of [STT_CreateStream] calls. *)
Fixpoint creates (tr : list event) : nat :=
  match tr with
  | [] => 0
  | STT_CreateStream _ :: tr => S (creates tr)
  | _ :: tr => creates tr
  end.

(** The number of decode calls, [STT_IntermediateDecode] or
    [STT_FinishStream]. *)
Fixpoint decode_calls (tr : list event) : nat :=
  match tr with
  | [] => 0
  | STT_IntermediateDecode _ :: tr => S (decode_calls tr)
  | STT_FinishStream _ :: tr => S (decode_calls tr)
  | _ :: tr => decode_calls tr
  end.

(** The strings handed back to [STT_FreeString], in order. *)
Fixpoint freed_strings (tr : list event) : list string :=
  match tr with
  | [] => []
  | STT_FreeString r :: tr => r :: freed_strings tr
  | _ :: tr => freed_strings tr
  end.

(** The statuses reported to the host, in order. *)
Fixpoint notified (tr : list event) : list speech_detection_status_t :=
  match tr with
  | [] => []
  | speech_detection_status_changed st :: tr => st :: notified tr
  | _ :: tr => notified tr
  end.

(** The number of [restart_sentence_timer] calls and of
    [m_start_time.reset()]. *)
Fixpoint restarts (tr : list event) : nat :=
  match tr with
  | [] => 0
  | restart_timer :: tr => S (restarts tr)
  | _ :: tr => restarts tr
  end.

Fixpoint time_resets (tr : list event) : nat :=
  match tr with
  | [] => 0
  | start_time_reset :: tr => S (time_resets tr)
  | _ :: tr => time_resets tr
  end.

(** The sample blocks handed to the VAD, and the number of VAD resets. *)
Fixpoint vad_inputs (tr : list event) : list ds_buf_t :=
  match tr with
  | [] => []
  | vad_remove_silence b :: tr => b :: vad_inputs tr
  | _ :: tr => vad_inputs tr
  end.

Fixpoint vad_resets (tr : list event) : nat :=
  match tr with
  | [] => 0
  | vad_reset :: tr => S (vad_resets tr)
  | _ :: tr => vad_resets tr
  end.

(** What the decode block does beyond [decode_block_post]: the members it
    keeps, the stream it leaves, the calls it makes. *)
Record decode_block_calls (eof vad_status : bool) (s : engine)
       (out : result samples_process_result_t * engine * list event)
  : Prop := {
  calls_model : m_ds_model (state_of out) = m_ds_model s;
  calls_started : m_speech_started (state_of out) = m_speech_started s;
  calls_final_stream :
    final_decode eof (m_speech_mode s) (m_intermediate_text s) vad_status
    = true ->
    m_ds_stream (state_of out) = None;
  calls_open_stream :
    final_decode eof (m_speech_mode s) (m_intermediate_text s) vad_status
    = false ->
    result_of out = Ret wait_for_samples ->
    is_set (m_ds_model s) = true ->
    is_set (m_ds_stream (state_of out)) = true;
  calls_fed_live :
    is_set (m_ds_model s) = true ->
    forall h b, In (h, b) (fed (trace_of out)) -> is_set h = true;
  calls_released :
    released (trace_of out)
    = match result_of out with Ret _ => 1 | Throw _ => 0 end;
  calls_in_buf :
    (forall w, result_of out <> Throw w) ->
    m_in_buf (state_of out) = mk_in_buf [] false false;
  calls_frees : frees (trace_of out) = [];
  calls_creates :
    creates (trace_of out) <= 1
    /\ (is_set (m_ds_stream s) = true -> creates (trace_of out) = 0);
  calls_decodes :
    decode_calls (trace_of out) <= 1
    /\ length (freed_strings (trace_of out)) = decode_calls (trace_of out);
  calls_restarts :
    restarts (trace_of out) = 0 /\ time_resets (trace_of out) = 0;
  calls_vad : vad_inputs (trace_of out) = [] /\ vad_resets (trace_of out) = 0;
  calls_texts :
    length (texts (trace_of out)) <= 1
    /\ (forall t, In t (texts (trace_of out)) ->
                  m_intermediate_text (state_of out) = Some t)
    /\ (texts (trace_of out) = [] ->
        m_intermediate_text (state_of out) = m_intermediate_text s);
  calls_automatic :
    m_speech_mode s = automatic ->
    ~ In decoding (notified (trace_of out))
    /\ (m_speech_detection_status s <> decoding ->
        m_speech_detection_status (state_of out) <> decoding);
  calls_manual :
    m_speech_mode s = manual ->
    ~ In speech_detected (notified (trace_of out))
    /\ (m_speech_detection_status (state_of out) = speech_detected ->
        m_speech_detection_status s = speech_detected)
}.

(** ** The library, the model and the life cycle of the object

    The members and calls of [open_ds_lib], [create_ds_model] and the
    destructor, around the [engine] of the processing step. *)

(** [m_ds_api]: the entry points of the backend library, as [dlsym]
    resolved them ([None] for an unresolved one). *)
Record ds_api := mk_ds_api {
  api_CreateModel : option handle;
  api_FreeModel : option handle;
  api_EnableExternalScorer : option handle;
  api_CreateStream : option handle;
  api_FreeStream : option handle;
  api_FinishStream : option handle;
  api_IntermediateDecode : option handle;
  api_FeedAudioContent : option handle;
  api_FreeString : option handle
}.

(** [m_ds_api = {}] *)
Definition no_api : ds_api :=
  mk_ds_api None None None None None None None None None.

(** The object: the members of the processing step, the model files
    (model, scorer), the library handle and the entry points. *)
Record wrapper := mk_wrapper {
  engine_of : engine;
  m_model_file : string * string;
  m_dslib_handle : option handle;
  m_ds_api : ds_api
}.

(** What the dynamic loader and the backend answer. *)
Record lib_env := mk_lib_env {
  dlopen_result : option handle;            (* dlopen("libstt.so") *)
  dlsym_result : string -> option handle;   (* dlsym(handle, symbol) *)
  create_model_status : Z;                  (* return value of STT_CreateModel *)
  create_model_handle : option handle       (* what it leaves in m_ds_model *)
}.

Inductive lib_event :=
| engine_event (ev : event)
| dl_open (file : string)
| dl_sym (lib : option handle) (symbol : string)
| dl_close (lib : option handle)
| STT_CreateModel (path : string)
| STT_FreeModel (m : option handle)
| STT_EnableExternalScorer (m : option handle) (scorer : string)
| LOGE (msg : string)
| LOGD_msg (msg : string).

(** The monad of these functions: as [M], over the whole object. *)
Definition L (A : Type) : Type :=
  lib_env -> wrapper -> result A * wrapper * list lib_event.

Definition L_ret {A} (a : A) : L A := fun _ w => (Ret a, w, []).

Definition L_bind {A B} (m : L A) (f : A -> L B) : L B :=
  fun le w =>
    match m le w with
    | (Ret a, w1, t1) =>
        let '(r, w2, t2) := f a le w1 in (r, w2, t1 ++ t2)
    | (Throw x, w1, t1) => (Throw x, w1, t1)
    end.

#[global] Instance Monad_L : Monad L :=
  {| ret := @L_ret; bind := @L_bind |}.

Definition get_w : L wrapper := fun _ w => (Ret w, w, []).
Definition ask_l : L lib_env := fun le w => (Ret le, w, []).
Definition modify_w (f : wrapper -> wrapper) : L unit :=
  fun _ w => (Ret tt, f w, []).
Definition emit_l (ev : lib_event) : L unit := fun _ w => (Ret tt, w, [ev]).
Definition throw_l {A} (what : string) : L A :=
  fun _ w => (Throw what, w, []).
Definition when_l (b : bool) (m : L unit) : L unit :=
  if b then m else ret tt.

(** Member updates. *)
Definition set_engine (s : engine) (w : wrapper) : wrapper :=
  mk_wrapper s (m_model_file w) (m_dslib_handle w) (m_ds_api w).

Definition set_dslib_handle (h : option handle) (w : wrapper) : wrapper :=
  mk_wrapper (engine_of w) (m_model_file w) h (m_ds_api w).

Definition set_ds_api (a : ds_api) (w : wrapper) : wrapper :=
  mk_wrapper (engine_of w) (m_model_file w) (m_dslib_handle w) a.

Definition set_ds_model (m : option handle) (s : engine) : engine :=
  mk_engine (m_speech_mode s) (m_in_buf s) (m_speech_buf s) m
            (m_ds_stream s) (m_intermediate_text s)
            (m_speech_detection_status s) (m_speech_started s).

(** [dlopen], [dlsym] and [dlclose]. *)
Definition dlopen (file : string) : L (option handle) :=
  emit_l (dl_open file) ;;
  le <- ask_l ;; ret (dlopen_result le).

Definition dlsym (lib : option handle) (symbol : string)
  : L (option handle) :=
  emit_l (dl_sym lib symbol) ;;
  le <- ask_l ;; ret (dlsym_result le symbol).

Definition dlclose (lib : option handle) : L unit :=
  emit_l (dl_close lib).

(** [m_ds_api.X = dlsym(m_dslib_handle, "X")], for one entry point. *)
Definition resolve (symbol : string)
           (store : option handle -> ds_api -> ds_api) : L unit :=
  w <- get_w ;;
  p <- dlsym (m_dslib_handle w) symbol ;;
  modify_w (fun w => set_ds_api (store p (m_ds_api w)) w).

Section Library.

(** [ds_api::ok] and [engine_wrapper::stop] are declared outside the
    sources at hand: the functions below take them as they are. *)
Variable ok : ds_api -> bool.
Variable stop : L unit.

(** [deepspeech_wrapper::open_ds_lib] *)
Definition open_ds_lib : L unit :=
  h <- dlopen "libstt.so" ;;
  modify_w (set_dslib_handle h) ;;
  w <- get_w ;;
  if negb (is_set (m_dslib_handle w)) then
    emit_l (LOGE "failed to open ds lib") ;;
    throw_l "failed to open ds lib"
  else
    resolve "STT_CreateModel"
      (fun p a => mk_ds_api p (api_FreeModel a) (api_EnableExternalScorer a)
                    (api_CreateStream a) (api_FreeStream a)
                    (api_FinishStream a) (api_IntermediateDecode a)
                    (api_FeedAudioContent a) (api_FreeString a)) ;;
    resolve "STT_FreeModel"
      (fun p a => mk_ds_api (api_CreateModel a) p (api_EnableExternalScorer a)
                    (api_CreateStream a) (api_FreeStream a)
                    (api_FinishStream a) (api_IntermediateDecode a)
                    (api_FeedAudioContent a) (api_FreeString a)) ;;
    resolve "STT_EnableExternalScorer"
      (fun p a => mk_ds_api (api_CreateModel a) (api_FreeModel a) p
                    (api_CreateStream a) (api_FreeStream a)
                    (api_FinishStream a) (api_IntermediateDecode a)
                    (api_FeedAudioContent a) (api_FreeString a)) ;;
    resolve "STT_CreateStream"
      (fun p a => mk_ds_api (api_CreateModel a) (api_FreeModel a)
                    (api_EnableExternalScorer a) p (api_FreeStream a)
                    (api_FinishStream a) (api_IntermediateDecode a)
                    (api_FeedAudioContent a) (api_FreeString a)) ;;
    resolve "STT_FreeStream"
      (fun p a => mk_ds_api (api_CreateModel a) (api_FreeModel a)
                    (api_EnableExternalScorer a) (api_CreateStream a) p
                    (api_FinishStream a) (api_IntermediateDecode a)
                    (api_FeedAudioContent a) (api_FreeString a)) ;;
    resolve "STT_FinishStream"
      (fun p a => mk_ds_api (api_CreateModel a) (api_FreeModel a)
                    (api_EnableExternalScorer a) (api_CreateStream a)
                    (api_FreeStream a) p (api_IntermediateDecode a)
                    (api_FeedAudioContent a) (api_FreeString a)) ;;
    resolve "STT_IntermediateDecode"
      (fun p a => mk_ds_api (api_CreateModel a) (api_FreeModel a)
                    (api_EnableExternalScorer a) (api_CreateStream a)
                    (api_FreeStream a) (api_FinishStream a) p
                    (api_FeedAudioContent a) (api_FreeString a)) ;;
    resolve "STT_FeedAudioContent"
      (fun p a => mk_ds_api (api_CreateModel a) (api_FreeModel a)
                    (api_EnableExternalScorer a) (api_CreateStream a)
                    (api_FreeStream a) (api_FinishStream a)
                    (api_IntermediateDecode a) p (api_FreeString a)) ;;
    resolve "STT_FreeString"
      (fun p a => mk_ds_api (api_CreateModel a) (api_FreeModel a)
                    (api_EnableExternalScorer a) (api_CreateStream a)
                    (api_FreeStream a) (api_FinishStream a)
                    (api_IntermediateDecode a) (api_FeedAudioContent a) p) ;;
    w' <- get_w ;;
    if negb (ok (m_ds_api w')) then
      emit_l (LOGE "failed to register ds api") ;;
      throw_l "failed to register ds api"
    else ret tt.

(** The constructor [deepspeech_wrapper::deepspeech_wrapper], after the
    base class: [m_speech_buf.reserve] changes the capacity of the
    buffer, not its content. *)
Definition deepspeech_wrapper_ctor : L unit :=
  open_ds_lib.

(** The destructor [deepspeech_wrapper::~deepspeech_wrapper] *)
Definition deepspeech_wrapper_dtor : L unit :=
  emit_l (LOGD_msg "ds dtor") ;;
  stop ;;
  w <- get_w ;;
  when_l (ok (m_ds_api w))
         (when_l (is_set (m_ds_stream (engine_of w)))
                 (emit_l (engine_event
                            (STT_FreeStream (m_ds_stream (engine_of w))))) ;;
          modify_w (fun w => set_engine (set_ds_stream None (engine_of w)) w) ;;
          w1 <- get_w ;;
          when_l (is_set (m_ds_model (engine_of w1)))
                 (emit_l (STT_FreeModel (m_ds_model (engine_of w1)))) ;;
          modify_w (fun w => set_engine (set_ds_model None (engine_of w)) w)) ;;
  modify_w (set_ds_api no_api) ;;
  w2 <- get_w ;;
  when_l (is_set (m_dslib_handle w2))
         (dlclose (m_dslib_handle w2) ;;
          modify_w (set_dslib_handle None)).

End Library.

(** [deepspeech_wrapper::create_ds_model] *)
Definition create_ds_model : L unit :=
  w <- get_w ;;
  if is_set (m_ds_model (engine_of w)) then ret tt
  else
    emit_l (LOGD_msg "creating ds model") ;;
    le <- ask_l ;;
    emit_l (STT_CreateModel (fst (m_model_file w))) ;;
    modify_w (fun w => set_engine
                         (set_ds_model (create_model_handle le) (engine_of w))
                         w) ;;
    w' <- get_w ;;
    if negb (create_model_status le =? 0)%Z
       || negb (is_set (m_ds_model (engine_of w'))) then
      emit_l (LOGE "failed to create ds model") ;;
      throw_l "failed to create ds model"
    else
      when_l (negb (str_empty (snd (m_model_file w'))))
             (emit_l (STT_EnableExternalScorer
                        (m_ds_model (engine_of w'))
                        (snd (m_model_file w')))) ;;
      emit_l (LOGD_msg "ds model created").

(** [deepspeech_wrapper::start_processing_impl] *)
Definition start_processing_impl : L unit := create_ds_model.

(** The calls to the loader and to the model functions, in order. *)
Fixpoint symbols (tr : list lib_event) : list (option handle * string) :=
  match tr with
  | [] => []
  | dl_sym lib symbol :: tr => (lib, symbol) :: symbols tr
  | _ :: tr => symbols tr
  end.

Fixpoint models_created (tr : list lib_event) : list string :=
  match tr with
  | [] => []
  | STT_CreateModel path :: tr => path :: models_created tr
  | _ :: tr => models_created tr
  end.

Fixpoint scorers (tr : list lib_event) : list (option handle * string) :=
  match tr with
  | [] => []
  | STT_EnableExternalScorer m path :: tr => (m, path) :: scorers tr
  | _ :: tr => scorers tr
  end.

(** The native resources released: streams, models, libraries. *)
Fixpoint releases (tr : list lib_event) : list lib_event :=
  match tr with
  | [] => []
  | engine_event (STT_FreeStream h) :: tr =>
      engine_event (STT_FreeStream h) :: releases tr
  | STT_FreeModel m :: tr => STT_FreeModel m :: releases tr
  | dl_close h :: tr => dl_close h :: releases tr
  | _ :: tr => releases tr
  end.

(** [STT_CreateModel] reported an error or left a null model. *)
Definition create_model_fails (le : lib_env) : bool :=
  negb (create_model_status le =? 0)%Z || negb (is_set (create_model_handle le)).

(** The nine entry points, in the order in which they are resolved. *)
Definition ds_symbols : list string :=
  ["STT_CreateModel"; "STT_FreeModel"; "STT_EnableExternalScorer";
   "STT_CreateStream"; "STT_FreeStream"; "STT_FinishStream";
   "STT_IntermediateDecode"; "STT_FeedAudioContent"; "STT_FreeString"].

(** The entry points as [dlsym] answers for their names. *)
Definition resolved_api (le : lib_env) : ds_api :=
  mk_ds_api (dlsym_result le "STT_CreateModel")
            (dlsym_result le "STT_FreeModel")
            (dlsym_result le "STT_EnableExternalScorer")
            (dlsym_result le "STT_CreateStream")
            (dlsym_result le "STT_FreeStream")
            (dlsym_result le "STT_FinishStream")
            (dlsym_result le "STT_IntermediateDecode")
            (dlsym_result le "STT_FeedAudioContent")
            (dlsym_result le "STT_FreeString").

(** A wrapper around a sample engine, with model and scorer files. *)
Definition sample_wrapper (s : engine) : wrapper :=
  mk_wrapper s ("model.tflite", "kenlm.scorer") None no_api.

(** A loader that finds the library and every symbol, and a backend that
    creates model [1]. *)
Definition lib_env_ok : lib_env :=
  mk_lib_env (Some 9%N) (fun _ => Some 5%N) 0 (Some 1%N).

(** A sample [ok], for the examples: all nine entry points resolved. *)
Definition all_resolved (a : ds_api) : bool :=
  is_set (api_CreateModel a) && is_set (api_FreeModel a)
  && is_set (api_EnableExternalScorer a) && is_set (api_CreateStream a)
  && is_set (api_FreeStream a) && is_set (api_FinishStream a)
  && is_set (api_IntermediateDecode a) && is_set (api_FeedAudioContent a)
  && is_set (api_FreeString a).

(** The result, the object and the trace of a run in [L]. *)
Definition result_of_l {A} (o : result A * wrapper * list lib_event)
  : result A := fst (fst o).
Definition wrapper_of {A} (o : result A * wrapper * list lib_event)
  : wrapper := snd (fst o).
Definition trace_of_l {A} (o : result A * wrapper * list lib_event)
  : list lib_event := snd o.

(** A [stop] that has nothing to stop. *)
Definition stop_idle : L unit := fun _ w => (Ret tt, w, []).

(** ** A backend that may return a null string

    [STT_IntermediateDecode] and [STT_FinishStream] return a [char*].
    [decode_speech] above is the function over a backend that answers
    with a string, [decoded e].  Below, the answer of the decode call is
    [cstr], which may be the null pointer ([None]): the construction
    [std::string result{cstr}] then throws (libstdc++ raises
    [std::logic_error]), after the feed and, on a final decode, after
    [m_ds_stream] was nulled; [STT_FreeString] and what follows it are
    not reached. *)
Definition null_string_error : string :=
  "basic_string: construction from null is not valid".

(** The lambda of [decode_speech] that yields [cstr]. *)
Definition decode_cstr_of (cstr : option string) (eof : bool)
  : M (option string) :=
  s <- get ;;
  if negb eof then
    emit (STT_IntermediateDecode (m_ds_stream s)) ;;
    ret cstr
  else
    emit (STT_FinishStream (m_ds_stream s)) ;;
    modify (set_ds_stream None) ;;
    ret cstr.

(** [deepspeech_wrapper::decode_speech], the decode call answering
    [cstr]. *)
Definition decode_speech_cstr (cstr : option string) (buf : ds_buf_t)
           (eof : bool) : M unit :=
  s <- get ;;
  if negb (is_set (m_ds_stream s)) && eof then ret tt
  else
    emit (LOGD log_decoding_started) ;;
    create_ds_stream ;;
    s1 <- get ;;
    emit (STT_FeedAudioContent (m_ds_stream s1) buf) ;;
    c <- decode_cstr_of cstr eof ;;
    match c with
    | None => throw null_string_error
    | Some result =>
        emit (STT_FreeString result) ;;
        emit (LOGD log_decoded) ;;
        s2 <- get ;;
        when (negb (is_set (m_intermediate_text s2))
              || opt_neq (m_intermediate_text s2) result)
             (set_intermediate_text result)
    end.

(** The decode block of [process_buff], the decode call answering
    [cstr]. *)
Definition decode_block_cstr (cstr : option string) (eof vad_status : bool)
  : M samples_process_result_t :=
  s1 <- get ;;
  let final_decode :=
    final_decode eof (m_speech_mode s1) (m_intermediate_text s1)
                 vad_status in
  let old_status := m_speech_detection_status s1 in
  when (final_decode && negb (mode_eqb (m_speech_mode s1) automatic))
       (set_speech_detection_status decoding) ;;
  s2 <- get ;;
  emit (LOGD (log_speech_frame (length (m_speech_buf s2)) final_decode)) ;;
  decode_speech_cstr cstr (m_speech_buf s2) final_decode ;;
  modify (set_speech_buf []) ;;
  s3 <- get ;;
  (if final_decode
      || (mode_eqb (m_speech_mode s3) manual && negb (m_speech_started s3))
   then set_speech_detection_status no_speech
   else set_speech_detection_status old_status) ;;
  when final_decode
       (flush (if negb eof && mode_eqb (m_speech_mode s3) automatic
               then regular else eof_flush)) ;;
  free_buf ;;
  ret wait_for_samples.

(** [deepspeech_wrapper::process_buff], block by block as in
    [process_buff_seq], the decode call answering [cstr]. *)
Definition process_buff_cstr (cstr : option string)
  : M samples_process_result_t :=
  locked <- lock_buff_for_processing ;;
  if negb locked then ret wait_for_samples
  else
    s0 <- get ;;
    emit (LOGD (log_process_samples (m_speech_mode s0) (size (m_in_buf s0))
                  (length (m_speech_buf s0))
                  (sof (m_in_buf s0)) (eof (m_in_buf s0)))) ;;
    when (sof (m_in_buf s0)) start_block ;;
    vad_status <- vad_block ;;
    exit <- thread_exit_requested ;;
    if exit then
      free_buf ;;
      ret no_samples_needed
    else decode_block_cstr cstr (eof (m_in_buf s0)) vad_status.

(** What the decode block does over such a backend: what it logs,
    flushes and feeds, the calls it makes, and the state it leaves when
    it returns and when the decode throws. *)
Record decode_block_cstr_post (cstr : option string) (eof vad_status : bool)
       (s : engine)
       (out : result samples_process_result_t * engine * list event)
  : Prop := {
  cstr_logged :
    logged_final (trace_of out)
    = Some (final_decode eof (m_speech_mode s) (m_intermediate_text s)
                         vad_status);
  cstr_flushes_returned :
    result_of out = Ret wait_for_samples ->
    flushes (trace_of out)
    = (if final_decode eof (m_speech_mode s) (m_intermediate_text s)
                       vad_status
       then [if negb eof && mode_eqb (m_speech_mode s) automatic
             then regular else eof_flush]
       else []);
  cstr_flushes :
    flushes (trace_of out) = []
    \/ (final_decode eof (m_speech_mode s) (m_intermediate_text s)
                     vad_status = true
        /\ flushes (trace_of out)
           = [if negb eof && mode_eqb (m_speech_mode s) automatic
              then regular else eof_flush]);
  cstr_final_returns :
    final_decode eof (m_speech_mode s) (m_intermediate_text s) vad_status
    = true ->
    is_set cstr = true ->
    result_of out = Ret wait_for_samples;
  cstr_result :
    result_of out = Ret wait_for_samples \/ exists w, result_of out = Throw w;
  cstr_fed :
    fed (trace_of out) = []
    \/ exists h, fed (trace_of out) = [(h, m_speech_buf s)];
  cstr_mode : m_speech_mode (state_of out) = m_speech_mode s;
  cstr_returns :
    result_of out = Ret wait_for_samples ->
    m_speech_buf (state_of out) = []
    /\ (decode_calls (trace_of out) = 1 -> is_set cstr = true);
  cstr_not_returned :
    result_of out <> Ret wait_for_samples ->
    m_speech_buf (state_of out) = m_speech_buf s
    /\ (m_speech_detection_status (state_of out)
        = m_speech_detection_status s
        \/ m_speech_detection_status (state_of out) = decoding)
    /\ flushes (trace_of out) = []
    /\ released (trace_of out) = 0;
  cstr_throws :
    forall w, result_of out = Throw w ->
    (w = "failed to create ds stream"
     /\ fed (trace_of out) = [] /\ decode_calls (trace_of out) = 0)
    \/ (w = null_string_error /\ cstr = None
        /\ (exists h, fed (trace_of out) = [(h, m_speech_buf s)])
        /\ decode_calls (trace_of out) = 1);
  cstr_creates :
    creates (trace_of out) <= 1
    /\ (is_set (m_ds_stream s) = true -> creates (trace_of out) = 0);
  cstr_decodes :
    decode_calls (trace_of out) <= 1
    /\ length (fed (trace_of out)) = decode_calls (trace_of out);
  cstr_freed :
    freed_strings (trace_of out)
    = match cstr with
      | Some r => repeat r (decode_calls (trace_of out))
      | None => []
      end;
  cstr_texts :
    flushes (trace_of out) = [] ->
    length (texts (trace_of out)) <= 1
    /\ (forall t, In t (texts (trace_of out)) ->
                  cstr = Some t
                  /\ m_intermediate_text (state_of out) = Some t)
    /\ (texts (trace_of out) = [] ->
        m_intermediate_text (state_of out) = m_intermediate_text s)
}.

(** Mid-utterance in [automatic] mode, the next frame deposited. *)
Definition engine_speaking : engine :=
  mk_engine automatic (mk_in_buf [1%Z] false false) [] (Some 1%N)
            (Some 7%N) (Some "hello") speech_detected false.

(** * Proofs *)

(** ** Basic facts *)

Lemma empty_nil {A} (l : list A) : empty l = true <-> l = [].
Proof. destruct l; simpl; split; congruence. Qed.

Lemma has_text_spec o :
  has_text o = true <-> exists t, o = Some t /\ t <> "".
Proof.
  destruct o as [[|c t]|]; simpl; split; try congruence.
  - intros [t [H Hne]]. inversion H; subst. congruence.
  - intros _. eexists; split; [reflexivity | congruence].
  - intros [t [H _]]. congruence.
Qed.

Lemma opt_neq_spec o r : opt_neq o r = true <-> o <> Some r.
Proof.
  destruct o as [t|]; simpl.
  - destruct (String.eqb_spec t r); simpl; split; congruence.
  - split; congruence.
Qed.

(** The lambda of [process_buff], condition by condition. *)
Lemma final_decode_true eof mode text vad_status :
  final_decode eof mode text vad_status = true <->
  eof = true
  \/ (mode = single_sentence /\ has_text text = true /\ vad_status = false)
  \/ (mode = automatic /\ vad_status = false).
Proof.
  unfold final_decode.
  destruct eof, mode, text as [[|c t]|], vad_status; simpl;
    intuition congruence.
Qed.

(** *** Observations of a concatenated trace *)

Lemma texts_app a b : texts (a ++ b) = texts a ++ texts b.
Proof.
  induction a as [|ev a IH]; [reflexivity |].
  destruct ev; cbn; rewrite ?IH; reflexivity.
Qed.

Lemma texts_In tr t : In (intermediate_text_decoded t) tr <-> In t (texts tr).
Proof.
  induction tr as [|ev tr IH]; [tauto |].
  destruct ev; cbn; rewrite <- ?IH; intuition congruence.
Qed.

Lemma flushes_app a b : flushes (a ++ b) = flushes a ++ flushes b.
Proof.
  induction a as [|ev a IH]; [reflexivity |].
  destruct ev; cbn; rewrite ?IH; reflexivity.
Qed.

Lemma timeouts_app a b : timeouts (a ++ b) = timeouts a + timeouts b.
Proof.
  induction a as [|ev a IH]; [reflexivity |].
  destruct ev; cbn; rewrite ?IH; reflexivity.
Qed.

Lemma fed_app a b : fed (a ++ b) = fed a ++ fed b.
Proof.
  induction a as [|ev a IH]; [reflexivity |].
  destruct ev; cbn; rewrite ?IH; reflexivity.
Qed.

Lemma logged_final_app a b :
  logged_final (a ++ b) =
  match logged_final a with Some fd => Some fd | None => logged_final b end.
Proof.
  induction a as [|ev a IH]; [reflexivity |].
  destruct ev as [| | | | | | | | | | | | | | |l]; cbn; auto.
  destruct l; auto.
Qed.

(** Case analysis on whatever blocks the evaluation of a step: the
    definitions are unfolded, and the variable that a [match] waits for is
    split. *)
Ltac norm_step := cbv -[Z.eqb String.eqb] in *.

Ltac split_step :=
  match goal with
  | |- context [match ?x with _ => _ end] => is_var x; destruct x
  | |- context [(?a =? ?b)%Z] => destruct (a =? b)%Z eqn:?
  | |- context [String.eqb ?a ?b] => destruct (String.eqb_spec a b)
  end; norm_step.

Ltac run_step := norm_step; repeat split_step.

Ltac open_step e s :=
  destruct s as [mode [ib sf ef] sb model stream text status started];
  destruct e as [lk vo tmo ex cs ch dec].

(** ** The stream life cycle *)

Section Streams.

Variables (e : env) (s : engine).

(** With a live stream, or without a model, nothing is created. *)
Lemma create_ds_stream_skip :
  is_set (m_ds_stream s) || negb (is_set (m_ds_model s)) = true ->
  create_ds_stream e s = (Ret tt, s, []).
Proof.
  intros H. unfold create_ds_stream. cbn. rewrite H. reflexivity.
Qed.

(** Without a stream and with a model, the backend is asked once. *)
Lemma create_ds_stream_call :
  m_ds_stream s = None -> is_set (m_ds_model s) = true ->
  create_ds_stream e s =
  if create_fails e
  then (Throw "failed to create ds stream",
        set_ds_stream (create_handle e) s,
        [STT_CreateStream (m_ds_model s); LOGD log_create_failed])
  else (Ret tt, set_ds_stream (create_handle e) s,
        [STT_CreateStream (m_ds_model s)]).
Proof.
  intros Hs Hm. unfold create_ds_stream, create_fails. cbn.
  rewrite Hs, Hm. cbn.
  destruct (negb (create_status e =? 0)%Z || negb (is_set (create_handle e)));
    reflexivity.
Qed.

End Streams.

(** ** The decode step *)

(** A decode that is not the no-op: stream creation (if any) apart, the
    buffer is fed, the text is decoded and handed over if it changed. *)
Lemma decode_speech_live buf eof e s h :
  m_ds_stream s = Some h ->
  decode_speech buf eof e s =
  (Ret tt,
   (if opt_neq (m_intermediate_text s) (decoded e)
    then set_text (Some (decoded e)) else fun s => s)
     (if eof then set_ds_stream None s else s),
   [LOGD log_decoding_started; STT_FeedAudioContent (Some h) buf;
    if eof then STT_FinishStream (Some h)
    else STT_IntermediateDecode (Some h);
    STT_FreeString (decoded e); LOGD log_decoded]
   ++ (if opt_neq (m_intermediate_text s) (decoded e)
       then [intermediate_text_decoded (decoded e)] else [])).
Proof.
  intros Hs. open_step e s. cbn in Hs. subst stream.
  destruct eof; run_step; reflexivity.
Qed.

(** A non-final decode without a stream first creates one. *)
Lemma decode_speech_lazy buf e s :
  m_ds_stream s = None -> is_set (m_ds_model s) = true ->
  decode_speech buf false e s =
  if create_fails e
  then (Throw "failed to create ds stream",
        set_ds_stream (create_handle e) s,
        [LOGD log_decoding_started; STT_CreateStream (m_ds_model s);
         LOGD log_create_failed])
  else
    (Ret tt,
     (if opt_neq (m_intermediate_text s) (decoded e)
      then set_text (Some (decoded e)) else fun s => s)
       (set_ds_stream (create_handle e) s),
     [LOGD log_decoding_started; STT_CreateStream (m_ds_model s);
      STT_FeedAudioContent (create_handle e) buf;
      STT_IntermediateDecode (create_handle e);
      STT_FreeString (decoded e); LOGD log_decoded]
     ++ (if opt_neq (m_intermediate_text s) (decoded e)
         then [intermediate_text_decoded (decoded e)] else [])).
Proof.
  intros Hs Hm. open_step e s. cbn in Hs, Hm. subst stream.
  destruct model as [m|]; [clear Hm | discriminate].
  run_step; reflexivity.
Qed.

(** A final decode without a stream returns at once. *)
Lemma decode_speech_skip buf e s :
  m_ds_stream s = None ->
  decode_speech buf true e s = (Ret tt, s, []).
Proof.
  intros Hs. unfold decode_speech. cbn. rewrite Hs. reflexivity.
Qed.

(** C5. A final decode ([eof] set) requested while no decoding session is
    open is a no-op: [decode_speech] returns at once, the engine is left
    as it was (intermediate text included) and the backend is not called,
    whatever the buffer holds. *)
Theorem decode_speech_eof_without_stream buf e s :
  m_ds_stream s = None ->
  let out := decode_speech buf true e s in
  result_of out = Ret tt
  /\ state_of out = s
  /\ m_intermediate_text (state_of out) = m_intermediate_text s
  /\ trace_of out = [].
Proof.
  intros Hs. cbv zeta. rewrite (decode_speech_skip buf e s Hs).
  repeat split.
Qed.

Lemma decode_speech_eof_without_stream_witness :
  m_ds_stream (fresh_engine manual) = None
  /\ trace_of (decode_speech [] true (env_ok []) (fresh_engine manual)) = [].
Proof.
  split; [reflexivity |].
  exact (proj2 (proj2 (proj2
           (@decode_speech_eof_without_stream
              [] (env_ok []) (fresh_engine manual) eq_refl)))).
Defined.

(** What one decode hands to the host. *)
Lemma decode_speech_texts b f e s r :
  decoded_string (trace_of (decode_speech b f e s)) = Some r ->
  r = decoded e
  /\ texts (trace_of (decode_speech b f e s))
     = (if opt_neq (m_intermediate_text s) r then [r] else [])
  /\ m_intermediate_text (state_of (decode_speech b f e s)) = Some r.
Proof.
  open_step e s. destruct f; run_step; try discriminate.
  all: intros [= <-]; repeat split; congruence.
Qed.

(** C6. A decode hands its string [r] to the host exactly when [r] differs
    from the intermediate text emitted before (none emitted counts as
    different); [r] is then the current value, so a second decode that
    yields [r] again hands over nothing: the two together make one
    callback when the first one was a change. *)
Theorem intermediate_text_dedup buf eof e s r :
  decoded_string (trace_of (decode_speech buf eof e s)) = Some r ->
  let out := decode_speech buf eof e s in
  (In (intermediate_text_decoded r) (trace_of out)
   <-> m_intermediate_text s <> Some r)
  /\ texts (trace_of out)
     = (if opt_neq (m_intermediate_text s) r then [r] else [])
  /\ m_intermediate_text (state_of out) = Some r
  /\ forall buf' eof' e',
      let out' := decode_speech buf' eof' e' (state_of out) in
      decoded_string (trace_of out') = Some r ->
      texts (trace_of out') = []
      /\ (m_intermediate_text s <> Some r ->
          texts (trace_of out ++ trace_of out') = [r]).
Proof.
  intros Hr out.
  destruct (decode_speech_texts _ _ _ _ Hr) as (Hd & Ht & Hs').
  fold out in Ht, Hs'.
  repeat split.
  - intros H. apply texts_In in H. rewrite Ht in H.
    destruct (opt_neq (m_intermediate_text s) r) eqn:E;
      [apply opt_neq_spec; exact E | destruct H].
  - intros H. apply texts_In. rewrite Ht.
    apply opt_neq_spec in H. rewrite H. left; reflexivity.
  - exact Ht.
  - exact Hs'.
  - destruct (decode_speech_texts _ _ _ _ H) as (_ & Ht' & _).
    rewrite Ht', Hs'. cbn. now rewrite String.eqb_refl.
  - intros Hne. destruct (decode_speech_texts _ _ _ _ H) as (_ & Ht' & _).
    rewrite texts_app, Ht, Ht', Hs'. cbn. rewrite String.eqb_refl. cbn.
    apply opt_neq_spec in Hne. rewrite Hne. reflexivity.
Qed.

Lemma intermediate_text_dedup_witness :
  texts (trace_of (decode_speech [1%Z] false (env_ok []) (fresh_engine manual)))
  = ["hello"].
Proof.
  exact (proj1 (proj2 (@intermediate_text_dedup
                         [1%Z] false (env_ok []) (fresh_engine manual)
                         "hello" eq_refl))).
Defined.

(** C10. A final decode delivers its transcript the way an intermediate
    decode does, through [set_intermediate_text] under the same guard: from
    the same engine and for the same decoded string both hand over the
    same texts, and a final transcript equal to the last emitted text
    triggers no callback.  After a final decode the stream pointer is
    null: it is nulled inside the lambda that calls [STT_FinishStream],
    before its result is copied and freed, and the stream is not freed a
    second time. *)
Theorem final_transcript_same_channel buf e s :
  let final := decode_speech buf true e s in
  result_of final = Ret tt
  /\ m_ds_stream (state_of final) = None
  /\ (m_intermediate_text s = Some (decoded e) -> texts (trace_of final) = [])
  /\ (forall s1, result_of (decode_cstr true e s1) = Ret (decoded e)
                 /\ m_ds_stream (state_of (decode_cstr true e s1)) = None
                 /\ trace_of (decode_cstr true e s1)
                    = [STT_FinishStream (m_ds_stream s1)])
  /\ (forall h,
      m_ds_stream s = Some h ->
      texts (trace_of final)
      = texts (trace_of (decode_speech buf false e s))
      /\ texts (trace_of final)
         = (if opt_neq (m_intermediate_text s) (decoded e)
            then [decoded e] else [])
      /\ exists tl,
          trace_of final
          = [LOGD log_decoding_started; STT_FeedAudioContent (Some h) buf;
             STT_FinishStream (Some h); STT_FreeString (decoded e)] ++ tl
          /\ forall x, ~ In (STT_FreeStream x) tl).
Proof.
  assert (Htx : forall r (c : bool),
             texts (if c then [intermediate_text_decoded r] else [])
             = if c then [r] else []) by (intros r []; reflexivity).
  cbv zeta. destruct (m_ds_stream s) as [h|] eqn:Hs.
  - rewrite !(decode_speech_live _ _ _ _ Hs).
    unfold result_of, state_of, trace_of. cbn [fst snd].
    rewrite !texts_app, Htx. cbn [texts app].
    split; [reflexivity |]. split.
    { destruct (opt_neq (m_intermediate_text s) (decoded e)); reflexivity. }
    split.
    { intros Ht. rewrite Ht. cbn. now rewrite String.eqb_refl. }
    split; [repeat split |].
    intros h' [= <-]. repeat split.
    eexists. split; [reflexivity |].
    intros x [H | H]; [discriminate |].
    destruct (opt_neq (m_intermediate_text s) (decoded e));
      cbn in H; intuition discriminate.
  - rewrite (decode_speech_skip _ _ _ Hs).
    repeat split; auto; discriminate.
Qed.

Lemma final_transcript_same_channel_witness :
  texts (trace_of (decode_speech [1%Z] true (env_ok [])
                     (set_text (Some "hello")
                        (set_ds_stream (Some 7%N) (fresh_engine automatic)))))
  = [].
Proof.
  exact (proj1 (proj2 (proj2
           (final_transcript_same_channel
              [1%Z] (env_ok [])
              (set_text (Some "hello")
                 (set_ds_stream (Some 7%N) (fresh_engine automatic))))))
           eq_refl).
Defined.

(** ** Stream creation failures *)

(** C4, as stated, fails: with no model handle [create_ds_stream] returns
    normally without asking the backend and without a stream, and the
    decode that follows feeds the buffer to the null stream. *)
Lemma create_ds_stream_silent_without_model :
  m_ds_model engine_without_model = None
  /\ create_ds_stream (env_ok []) engine_without_model
     = (Ret tt, engine_without_model, [])
  /\ result_of (decode_speech [5%Z] false (env_ok []) engine_without_model)
     = Ret tt
  /\ fed (trace_of (decode_speech [5%Z] false (env_ok []) engine_without_model))
     = [(None, [5%Z])].
Proof. repeat split. Qed.

(** C4, amended.  With an initialised model and no live stream, a backend
    that reports an error or leaves a null stream makes [create_ds_stream]
    throw, also when [decode_speech] creates the stream lazily, and then
    nothing is fed; with an initialised model a decode feeds audio to a
    live stream only.  With no model handle and no stream,
    [create_ds_stream] returns without calling the backend. *)
Theorem create_ds_stream_failure_is_fatal e s :
  (m_ds_stream s = None -> is_set (m_ds_model s) = true ->
   create_fails e = true ->
   result_of (create_ds_stream e s) = Throw "failed to create ds stream"
   /\ forall buf,
       result_of (decode_speech buf false e s)
       = Throw "failed to create ds stream"
       /\ fed (trace_of (decode_speech buf false e s)) = [])
  /\ (is_set (m_ds_model s) = true ->
      forall buf eof h b,
        In (STT_FeedAudioContent h b) (trace_of (decode_speech buf eof e s)) ->
        is_set h = true)
  /\ (m_ds_stream s = None -> m_ds_model s = None ->
      create_ds_stream e s = (Ret tt, s, [])).
Proof.
  split; [| split].
  - intros Hs Hm Hf. split.
    + rewrite (create_ds_stream_call e s Hs Hm), Hf. reflexivity.
    + intros buf. rewrite (decode_speech_lazy buf e s Hs Hm), Hf.
      split; reflexivity.
  - intros Hm buf eof h b.
    destruct (m_ds_stream s) as [h0|] eqn:Hs.
    + rewrite (decode_speech_live buf eof e s Hs). cbn.
      intros [H | [H | [H | [H | [H | H]]]]]; try discriminate.
      * injection H as <- _. reflexivity.
      * destruct eof; discriminate.
      * destruct (opt_neq (m_intermediate_text s) (decoded e));
          cbn in H; intuition discriminate.
    + destruct eof.
      * rewrite (decode_speech_skip buf e s Hs). intros [].
      * rewrite (decode_speech_lazy buf e s Hs Hm).
        destruct (create_fails e) eqn:Hf; cbn.
        -- intuition discriminate.
        -- intros [H | [H | [H | [H | [H | [H | H]]]]]]; try discriminate.
           ++ injection H as <- _. unfold create_fails in Hf.
              apply orb_false_iff in Hf. destruct Hf as [_ Hf].
              now apply negb_false_iff in Hf.
           ++ destruct (opt_neq (m_intermediate_text s) (decoded e));
                cbn in H; intuition discriminate.
  - intros Hs Hm. apply create_ds_stream_skip. rewrite Hs, Hm. reflexivity.
Qed.

Lemma create_ds_stream_failure_is_fatal_witness :
  result_of (create_ds_stream env_create_error (fresh_engine manual))
  = Throw "failed to create ds stream"
  /\ create_ds_stream (env_ok []) engine_without_model
     = (Ret tt, engine_without_model, []).
Proof.
  split.
  - exact (proj1 (proj1 (create_ds_stream_failure_is_fatal
                           env_create_error (fresh_engine manual))
                        eq_refl eq_refl eq_refl)).
  - exact (proj2 (proj2 (create_ds_stream_failure_is_fatal
                           (env_ok []) engine_without_model))
                 eq_refl eq_refl).
Defined.

(** ** The processing step *)

(** The monad laws that the regrouping needs, pointwise. *)
Lemma M_bind_ext {A B} (m : M A) (f g : A -> M B) e s :
  (forall a e' s', f a e' s' = g a e' s') ->
  M_bind m f e s = M_bind m g e s.
Proof.
  intros H. unfold M_bind. destruct (m e s) as [[[a|w] s1] t1]; [| reflexivity].
  rewrite H. reflexivity.
Qed.

Lemma M_bind_assoc {A B C} (m : M A) (f : A -> M B) (g : B -> M C) e s :
  M_bind (M_bind m f) g e s = M_bind m (fun a => M_bind (f a) g) e s.
Proof.
  unfold M_bind. destruct (m e s) as [[[a|w] s1] t1]; [| reflexivity].
  destruct (f a e s1) as [[[b|w] s2] t2]; [| reflexivity].
  destruct (g b e s2) as [[r s3] t3]. now rewrite app_assoc.
Qed.

Lemma M_bind_ret_l {A B} (a : A) (f : A -> M B) e s :
  M_bind (M_ret a) f e s = f a e s.
Proof. unfold M_bind, M_ret. destruct (f a e s) as [[r s2] t2]. reflexivity. Qed.

Lemma process_buff_is_seq e s : process_buff e s = process_buff_seq e s.
Proof.
  unfold process_buff, process_buff_seq.
  change (@bind M Monad_M) with (@M_bind).
  change (@ret M Monad_M) with (@M_ret).
  apply M_bind_ext; intros locked e0 s0.
  destruct locked; [| reflexivity]. cbn [negb].
  apply M_bind_ext; intros s1 e1 s1'.
  apply M_bind_ext; intros _ e2 s2.
  apply M_bind_ext; intros _ e3 s3.
  unfold vad_block.
  change (@bind M Monad_M) with (@M_bind).
  change (@ret M Monad_M) with (@M_ret).
  rewrite M_bind_assoc. apply M_bind_ext; intros vad_buf e4 s4.
  rewrite M_bind_assoc. apply M_bind_ext; intros _ e5 s5.
  rewrite M_bind_assoc. apply M_bind_ext; intros _ e6 s6.
  rewrite M_bind_assoc. apply M_bind_ext; intros _ e7 s7.
  rewrite M_bind_ret_l.
  reflexivity.
Qed.

Lemma start_block_eq e s :
  start_block e s =
  (if is_set (m_ds_model s) && create_fails e
   then Throw "failed to create ds stream" else Ret tt,
   start_state e s, start_trace e s).
Proof. open_step e s. run_step; reflexivity. Qed.

Lemma vad_block_eq e s :
  vad_block e s =
  (Ret (negb (empty (vad_out e))), vad_state e s, vad_trace e s).
Proof. open_step e s. run_step; reflexivity. Qed.

(** A step along its four exits: frame not claimed, start-of-frame block
    throws, shutdown requested, decode block entered. *)
Lemma process_buff_blocks e s :
  process_buff e s =
  if negb (lock_ok e) then (Ret wait_for_samples, s, [])
  else if sof_throws e s
  then (Throw "failed to create ds stream", start_of e s, trace_to_vad e s)
  else
    let s2 := vad_state e (start_of e s) in
    let t2 := trace_to_vad e s ++ vad_trace e (start_of e s) in
    if exit_requested e
    then (Ret no_samples_needed, s2, t2 ++ [buf_released])
    else
      let '(r, s3, t3) :=
        decode_block (eof (m_in_buf s)) (negb (empty (vad_out e))) e s2 in
      (r, s3, t2 ++ t3).
Proof.
  rewrite process_buff_is_seq.
  unfold process_buff_seq, sof_throws, start_of, trace_to_vad.
  change (@bind M Monad_M) with (@M_bind).
  change (@ret M Monad_M) with (@M_ret).
  unfold M_bind, lock_buff_for_processing, thread_exit_requested, get, ask,
    emit, M_ret, when, free_buf, in_buf_clear, modify.
  cbn [bind ret Monad_M].
  unfold M_bind, M_ret, emit, modify.
  destruct (lock_ok e); [| reflexivity]. cbn [negb app].
  destruct (sof (m_in_buf s)); cbn [andb].
  - rewrite start_block_eq.
    destruct (is_set (m_ds_model s) && create_fails e); [reflexivity |].
    rewrite vad_block_eq.
    destruct (exit_requested e); cbn [app].
    + rewrite <- !app_assoc. reflexivity.
    + destruct (decode_block _ _ e _) as [[r s3] t3].
      rewrite <- !app_assoc. reflexivity.
  - rewrite vad_block_eq.
    destruct (exit_requested e); cbn [app].
    + reflexivity.
    + destruct (decode_block _ _ e _) as [[r s3] t3]. reflexivity.
Qed.

Lemma decode_block_spec eof vad_status e s :
  decode_block_post eof vad_status s (decode_block eof vad_status e s).
Proof.
  generalize (eq_refl (decode_block eof vad_status e s)).
  generalize (decode_block eof vad_status e s) at 2 3.
  open_step e s. intros out.
  destruct eof, vad_status; run_step.
  all: intros <-; constructor; cbn; intros;
    try reflexivity; try congruence; auto.
  all: right; eexists; reflexivity.
Qed.

(** The trace up to the decode block holds no feed, no flush and no
    value of [final_decode]; only the VAD block calls
    [sentence_timeout]. *)
Lemma trace_to_vad_quiet e s :
  flushes (trace_to_vad e s) = []
  /\ fed (trace_to_vad e s) = []
  /\ timeouts (trace_to_vad e s) = 0
  /\ logged_final (trace_to_vad e s) = None.
Proof.
  unfold trace_to_vad, start_trace.
  destruct (sof (m_in_buf s)), (is_set (m_ds_stream s)),
    (is_set (m_ds_model s)), (create_fails e); repeat split.
Qed.

Lemma vad_trace_quiet e s :
  flushes (vad_trace e s) = []
  /\ fed (vad_trace e s) = []
  /\ timeouts (vad_trace e s)
     = (if empty (vad_out e) && sentence_timeout_due e s then 1 else 0)
  /\ logged_final (vad_trace e s) = None.
Proof.
  unfold vad_trace.
  destruct (empty (vad_out e)), (sentence_timeout_due e s),
    (mode_eqb (m_speech_mode s) manual),
    (status_eqb (m_speech_detection_status s) speech_detected);
    repeat split.
Qed.

(** What the first two blocks do to the members. *)
Lemma start_of_fields e s :
  m_speech_mode (start_of e s) = m_speech_mode s
  /\ m_intermediate_text (start_of e s) = m_intermediate_text s
  /\ m_speech_detection_status (start_of e s) = m_speech_detection_status s
  /\ m_speech_started (start_of e s) = m_speech_started s
  /\ m_speech_buf (start_of e s)
     = if sof (m_in_buf s) then [] else m_speech_buf s.
Proof. unfold start_of. destruct (sof (m_in_buf s)); repeat split. Qed.

Lemma vad_state_fields e s :
  m_speech_mode (vad_state e s) = m_speech_mode s
  /\ m_intermediate_text (vad_state e s) = m_intermediate_text s
  /\ m_speech_started (vad_state e s) = m_speech_started s
  /\ m_speech_buf (vad_state e s)
     = (if empty (vad_out e) then m_speech_buf s
        else m_speech_buf s ++ vad_out e)
  /\ m_speech_detection_status (vad_state e s)
     = if negb (empty (vad_out e)) && negb (mode_eqb (m_speech_mode s) manual)
       then speech_detected else m_speech_detection_status s.
Proof.
  unfold vad_state.
  destruct (empty (vad_out e)), (mode_eqb (m_speech_mode s) manual);
    repeat split.
Qed.

(** The state in which the decode block starts. *)
Lemma decode_start_fields e s :
  let s2 := vad_state e (start_of e s) in
  m_speech_mode s2 = m_speech_mode s
  /\ m_intermediate_text s2 = m_intermediate_text s
  /\ m_speech_started s2 = m_speech_started s
  /\ m_speech_buf s2
     = (if sof (m_in_buf s) then [] else m_speech_buf s) ++ vad_out e
  /\ m_speech_detection_status s2
     = if negb (empty (vad_out e)) && negb (mode_eqb (m_speech_mode s) manual)
       then speech_detected else m_speech_detection_status s.
Proof.
  cbv zeta.
  destruct (start_of_fields e s) as (Hsm & Hsx & Hss & Hsr & Hsb).
  destruct (vad_state_fields e (start_of e s))
    as (Hvm & Hvx & Hvr & Hvb & Hvs).
  rewrite Hvm, Hvx, Hvr, Hvb, Hvs, Hsm, Hsx, Hss, Hsr, Hsb.
  repeat split.
  destruct (vad_out e); cbn [empty];
    [symmetry; apply app_nil_r | reflexivity].
Qed.

(** Splits a step along its exits and brings in what is known of each
    block. *)
Ltac by_blocks e s :=
  rewrite !(process_buff_blocks e s); cbv zeta;
  destruct (trace_to_vad_quiet e s) as (Hpf & Hpd & Hpt & Hpl);
  destruct (vad_trace_quiet e (start_of e s)) as (Hvf & Hvd & Hvt & Hvl);
  destruct (decode_start_fields e s) as (Hvm & Hvx & Hvr & Hvb & Hvs);
  destruct (lock_ok e) eqn:Hlock; cbn [negb andb];
  [ destruct (sof_throws e s) eqn:Hsof; cbn [negb andb];
    [ | destruct (exit_requested e) eqn:Hexit; cbn [negb andb];
        [ | let H := fresh "Hpost" in
            pose proof (decode_block_spec (eof (m_in_buf s))
                          (negb (empty (vad_out e))) e
                          (vad_state e (start_of e s))) as H;
            destruct (decode_block (eof (m_in_buf s))
                        (negb (empty (vad_out e))) e
                        (vad_state e (start_of e s)))
              as [[r s3] t3];
            destruct H as [Hdl Hdf Hdt Hdd Hdm Hret Hthrow];
            unfold result_of, state_of, trace_of in *; cbn [fst snd] in *;
            rewrite ?Hvm, ?Hvx, ?Hvr, ?Hvb, ?Hvs in Hdl;
            rewrite ?Hvm, ?Hvx, ?Hvr, ?Hvb, ?Hvs in Hdf;
            rewrite ?Hvm, ?Hvx, ?Hvr, ?Hvb, ?Hvs in Hdd;
            rewrite ?Hvm, ?Hvx, ?Hvr, ?Hvb, ?Hvs in Hdm;
            rewrite ?Hvm, ?Hvx, ?Hvr, ?Hvb, ?Hvs in Hret;
            rewrite ?Hvm, ?Hvx, ?Hvr, ?Hvb, ?Hvs in Hthrow ] ]
  | ];
  unfold result_of, state_of, trace_of in *; cbn [fst snd] in *;
  rewrite ?flushes_app, ?timeouts_app, ?fed_app, ?logged_final_app.

(** Whether a step gets as far as computing [final_decode]: the frame was
    claimed, the start-of-frame block did not throw and no shutdown was
    requested; the logged value is then the one of the lambda. *)
Lemma logged_final_process_buff e s :
  logged_final (trace_of (process_buff e s)) =
  if lock_ok e && negb (sof_throws e s) && negb (exit_requested e)
  then Some (final_decode (eof (m_in_buf s)) (m_speech_mode s)
                          (m_intermediate_text s) (negb (empty (vad_out e))))
  else None.
Proof.
  by_blocks e s; rewrite ?Hpl, ?Hvl; auto.
Qed.

(** C1. The value of [final_decode] that a processing step computes is
    true exactly when the claimed frame has [eof] set, or the mode is
    [single_sentence], a non-empty intermediate text exists and the VAD
    found no speech in this step, or the mode is [automatic] and the VAD
    found no speech in this step. *)
Theorem final_decode_computed e s fd :
  logged_final (trace_of (process_buff e s)) = Some fd ->
  (fd = true <->
   eof (m_in_buf s) = true
   \/ (m_speech_mode s = single_sentence
       /\ (exists t, m_intermediate_text s = Some t /\ t <> "")
       /\ vad_out e = [])
   \/ (m_speech_mode s = automatic /\ vad_out e = [])).
Proof.
  rewrite logged_final_process_buff.
  destruct (lock_ok e && negb (sof_throws e s) && negb (exit_requested e));
    [| discriminate].
  intros [= <-].
  rewrite final_decode_true, has_text_spec, negb_false_iff, empty_nil.
  reflexivity.
Qed.

Lemma final_decode_computed_witness :
  logged_final (trace_of (process_buff (env_ok []) engine_mid_utterance))
  = Some true
  /\ (true = true <->
      eof (m_in_buf engine_mid_utterance) = true
      \/ (m_speech_mode engine_mid_utterance = single_sentence
          /\ (exists t, m_intermediate_text engine_mid_utterance = Some t
                        /\ t <> "")
          /\ vad_out (env_ok []) = [])
      \/ (m_speech_mode engine_mid_utterance = automatic
          /\ vad_out (env_ok []) = [])).
Proof.
  split; [reflexivity |].
  apply (@final_decode_computed (env_ok []) engine_mid_utterance true).
  reflexivity.
Defined.

(** C7. When a processing step has run to its end, the status is
    [no_speech] if [final_decode] was true or the mode is [manual] and
    speech was never started; otherwise it is the status captured before
    the decode, that is [speech_detected] if the VAD found speech and the
    mode is not [manual], and the status the step started with if not: an
    intermediate decode leaves it as it was. *)
Theorem final_status e s fd :
  logged_final (trace_of (process_buff e s)) = Some fd ->
  result_of (process_buff e s) = Ret wait_for_samples ->
  let old_status :=
    if negb (empty (vad_out e)) && negb (mode_eqb (m_speech_mode s) manual)
    then speech_detected else m_speech_detection_status s in
  m_speech_detection_status (state_of (process_buff e s)) =
  if fd || (mode_eqb (m_speech_mode s) manual && negb (m_speech_started s))
  then no_speech else old_status.
Proof.
  by_blocks e s; rewrite ?Hpl, ?Hvl; cbn [logged_final]; try discriminate.
  rewrite Hdl. intros [= <-] Hr. apply Hret, Hr.
Qed.

Lemma final_status_witness :
  m_speech_detection_status
    (state_of (process_buff (env_ok []) engine_mid_utterance)) = no_speech.
Proof.
  exact (@final_status (env_ok []) engine_mid_utterance true
                       eq_refl eq_refl).
Defined.

(** ** The utterance buffer *)

(** C8, as stated, fails.  A decode that throws (the stream cannot be
    created) is not followed by the clearing of the buffer, and in
    [manual] mode the status does not follow the buffer: the step ends
    with samples in the buffer and status [no_speech].  The same holds
    when the step leaves on a shutdown request. *)
Lemma speech_buf_kept_with_no_speech_status :
  let thrown := process_buff env_create_error engine_after_final in
  let left := process_buff env_shutdown engine_after_final in
  logged_final (trace_of thrown) = Some false
  /\ result_of thrown = Throw "failed to create ds stream"
  /\ m_speech_buf (state_of thrown) = [1%Z]
  /\ m_speech_detection_status (state_of thrown) = no_speech
  /\ result_of left = Ret no_samples_needed
  /\ m_speech_buf (state_of left) = [1%Z]
  /\ m_speech_detection_status (state_of left) = no_speech.
Proof. repeat split. Qed.

(** Outside [manual] mode the first two blocks keep the buffer empty
    unless they set the status to [speech_detected]. *)
Lemma vad_keeps_buf_status e s :
  mode_eqb (m_speech_mode s) manual = false ->
  buf_status_ok s = true ->
  buf_status_ok (vad_state e (start_of e s)) = true.
Proof.
  intros Hm Hok.
  destruct (decode_start_fields e s) as (_ & _ & _ & Hb & Hs).
  unfold buf_status_ok in *. rewrite Hb, Hs, Hm.
  destruct (vad_out e) as [|x v]; cbn [empty negb andb].
  - rewrite app_nil_r. destruct (sof (m_in_buf s)); [reflexivity | exact Hok].
  - now rewrite orb_true_r.
Qed.

(** ** Sentence timeout over consecutive steps *)

(** One step calls [sentence_timeout] once if it is idle, and not at all
    if it is not. *)
Lemma timeouts_process_buff e s :
  timeouts (trace_of (process_buff e s)) = if idle_step e s then 1 else 0.
Proof.
  unfold idle_step.
  by_blocks e s; rewrite ?Hpt, ?Hvt, ?Hdt; cbn [timeouts andb];
    try reflexivity;
    destruct (empty (vad_out e) && sentence_timeout_due e (start_of e s))
      eqn:Hdue; rewrite ?Hdue; reflexivity.
Qed.

(** C3, as stated, fails: over an idle period of two steps the callback
    fires twice, once in each step. *)
Lemma sentence_timeout_fires_in_each_step :
  idle_run [(silent_frame, env_idle); (silent_frame, env_idle)]
           engine_listening = true
  /\ timeouts (snd (run [(silent_frame, env_idle); (silent_frame, env_idle)]
                        engine_listening)) = 2.
Proof. split; reflexivity. Qed.

(** C3, amended.  A processing step calls [sentence_timeout] exactly once
    when, in [single_sentence] mode, the VAD finds no speech, the
    utterance buffer is empty, no non-empty intermediate text exists and
    the sentence timer has expired, and it does not call it otherwise: a
    run calls it as many times as it has such steps, so [n] times over an
    idle period of [n] steps. *)
Theorem sentence_timeout_once_per_idle_step steps s :
  timeouts (snd (run steps s)) = idle_steps steps s
  /\ (idle_run steps s = true ->
      timeouts (snd (run steps s)) = length steps).
Proof.
  revert s. induction steps as [|[f e] rest IH]; intros s.
  - split; reflexivity.
  - cbn [run idle_steps idle_run length].
    destruct (IH (state_of (process_buff e (set_in_buf f s)))) as [IHn IHall].
    destruct (run rest (state_of (process_buff e (set_in_buf f s))))
      as [s' t'] eqn:Hrun.
    cbn [snd] in *. rewrite timeouts_app, timeouts_process_buff, IHn.
    split; [reflexivity |].
    intros Hidle. apply andb_prop in Hidle. destruct Hidle as [Hstep Hrest].
    rewrite Hstep, <- IHn, (IHall Hrest). reflexivity.
Qed.

Lemma sentence_timeout_once_per_idle_step_witness :
  timeouts (snd (run [(silent_frame, env_idle); (silent_frame, env_idle);
                      (silent_frame, env_idle)] engine_listening)) = 3.
Proof.
  exact (proj2 (sentence_timeout_once_per_idle_step
                  [(silent_frame, env_idle); (silent_frame, env_idle);
                   (silent_frame, env_idle)] engine_listening) eq_refl).
Defined.

(** ** Reset *)

(** C9. A reset leaves the utterance buffer empty, no stream and no
    intermediate text; a second reset right after it returns the same
    engine and frees nothing again.  The part of [reset_impl] is
    idempotent by itself: the second call finds nothing to do. *)
Theorem reset_idempotent e e' s :
  let once := reset e s in
  let twice := reset e' (state_of once) in
  result_of once = Ret tt
  /\ result_of twice = Ret tt
  /\ state_of twice = state_of once
  /\ trace_of twice = [vad_reset; start_time_reset]
  /\ m_speech_buf (state_of once) = []
  /\ m_ds_stream (state_of once) = None
  /\ m_intermediate_text (state_of once) = None
  /\ reset_impl e' (state_of (reset_impl e s))
     = (Ret tt, state_of (reset_impl e s), [])
  /\ m_speech_buf (state_of (reset_impl e s)) = []
  /\ m_ds_stream (state_of (reset_impl e s)) = None.
Proof.
  open_step e s. destruct stream; repeat split.
Qed.

(** ** Scenarios *)

(** [automatic] mode, a frame with speech that opens the utterance, then
    a silent frame: the second step is a final decode, it flushes
    [regular], the stream is gone, the buffer is empty and the status is
    [no_speech]. *)
Example automatic_speech_then_silence :
  let '(s, tr) := run [(first_frame, env_ok [3%Z; 4%Z]);
                       (silent_frame, env_ok [])]
                      (fresh_engine automatic) in
  flushes tr = [regular]
  /\ fed tr = [(Some 7%N, [3%Z; 4%Z]); (Some 7%N, [])]
  /\ m_ds_stream s = None
  /\ m_speech_buf s = []
  /\ m_speech_detection_status s = no_speech.
Proof. repeat split. Qed.

(** [manual] mode, speech, speech, silence, end of stream: the stream is
    finished once, at the last frame, which flushes [eof]. *)
Example manual_until_eof :
  let '(s, tr) := run [(first_frame, env_ok [3%Z; 4%Z]);
                       (silent_frame, env_ok [5%Z]);
                       (silent_frame, env_ok []);
                       (last_frame, env_ok [])]
                      (fresh_engine manual) in
  flushes tr = [eof_flush]
  /\ filter (fun ev => match ev with STT_FinishStream _ => true | _ => false end)
            tr = [STT_FinishStream (Some 7%N)]
  /\ texts tr = ["hello"]
  /\ m_ds_stream s = None
  /\ m_speech_detection_status s = no_speech.
Proof. repeat split. Qed.

(** ** More about the processing step *)

Lemma released_app a b : released (a ++ b) = released a + released b.
Proof.
  induction a as [|ev a IH]; [reflexivity |].
  destruct ev; cbn; rewrite ?IH; reflexivity.
Qed.

Lemma frees_app a b : frees (a ++ b) = frees a ++ frees b.
Proof.
  induction a as [|ev a IH]; [reflexivity |].
  destruct ev; cbn; rewrite ?IH; reflexivity.
Qed.

Lemma creates_app a b : creates (a ++ b) = creates a + creates b.
Proof.
  induction a as [|ev a IH]; [reflexivity |].
  destruct ev; cbn; rewrite ?IH; reflexivity.
Qed.

Lemma decode_calls_app a b :
  decode_calls (a ++ b) = decode_calls a + decode_calls b.
Proof.
  induction a as [|ev a IH]; [reflexivity |].
  destruct ev; cbn; rewrite ?IH; reflexivity.
Qed.

Lemma freed_strings_app a b :
  freed_strings (a ++ b) = freed_strings a ++ freed_strings b.
Proof.
  induction a as [|ev a IH]; [reflexivity |].
  destruct ev; cbn; rewrite ?IH; reflexivity.
Qed.

Lemma notified_app a b : notified (a ++ b) = notified a ++ notified b.
Proof.
  induction a as [|ev a IH]; [reflexivity |].
  destruct ev; cbn; rewrite ?IH; reflexivity.
Qed.

Lemma restarts_app a b : restarts (a ++ b) = restarts a + restarts b.
Proof.
  induction a as [|ev a IH]; [reflexivity |].
  destruct ev; cbn; rewrite ?IH; reflexivity.
Qed.

Lemma time_resets_app a b :
  time_resets (a ++ b) = time_resets a + time_resets b.
Proof.
  induction a as [|ev a IH]; [reflexivity |].
  destruct ev; cbn; rewrite ?IH; reflexivity.
Qed.

(** The calls of the trace up to the VAD block. *)
Lemma trace_to_vad_calls e s :
  released (trace_to_vad e s) = 0
  /\ frees (trace_to_vad e s)
     = (if sof (m_in_buf s) && is_set (m_ds_stream s)
        then [m_ds_stream s] else [])
  /\ creates (trace_to_vad e s)
     = (if sof (m_in_buf s) && is_set (m_ds_model s) then 1 else 0)
  /\ decode_calls (trace_to_vad e s) = 0
  /\ freed_strings (trace_to_vad e s) = []
  /\ notified (trace_to_vad e s) = []
  /\ restarts (trace_to_vad e s) = 0
  /\ time_resets (trace_to_vad e s) = (if sof (m_in_buf s) then 1 else 0)
  /\ texts (trace_to_vad e s) = [].
Proof.
  unfold trace_to_vad, start_trace.
  destruct (sof (m_in_buf s)), (is_set (m_ds_stream s)),
    (is_set (m_ds_model s)), (create_fails e); repeat split.
Qed.

(** The calls of the VAD block. *)
Lemma vad_trace_calls e s :
  released (vad_trace e s) = 0
  /\ frees (vad_trace e s) = []
  /\ creates (vad_trace e s) = 0
  /\ decode_calls (vad_trace e s) = 0
  /\ freed_strings (vad_trace e s) = []
  /\ notified (vad_trace e s)
     = (if negb (empty (vad_out e))
           && negb (mode_eqb (m_speech_mode s) manual)
           && negb (status_eqb (m_speech_detection_status s) speech_detected)
        then [speech_detected] else [])
  /\ restarts (vad_trace e s) = (if empty (vad_out e) then 0 else 1)
  /\ time_resets (vad_trace e s) = 0
  /\ texts (vad_trace e s) = [].
Proof.
  unfold vad_trace.
  destruct (empty (vad_out e)), (sentence_timeout_due e s),
    (mode_eqb (m_speech_mode s) manual),
    (status_eqb (m_speech_detection_status s) speech_detected);
    repeat split.
Qed.

(** The model, the stream and the frame when the decode block starts. *)
Lemma decode_start_handles e s :
  let s2 := vad_state e (start_of e s) in
  m_ds_model s2 = m_ds_model s
  /\ m_ds_stream s2
     = (if sof (m_in_buf s)
        then if is_set (m_ds_model s) then create_handle e else None
        else m_ds_stream s)
  /\ m_in_buf s2 = mk_in_buf [] false false.
Proof.
  destruct s as [mode [ib sf ef] sb model stream text status started].
  unfold vad_state, start_of, start_state. cbn.
  destruct sf, (empty (vad_out e)), mode; repeat split.
Qed.

Lemma decode_block_calls_spec eof vad_status e s :
  decode_block_calls eof vad_status s (decode_block eof vad_status e s).
Proof.
  generalize (eq_refl (decode_block eof vad_status e s)).
  generalize (decode_block eof vad_status e s) at 2 3.
  open_step e s. intros out.
  destruct eof, vad_status; run_step.
  all: intros <-; constructor; cbn; intros;
    try reflexivity; try discriminate; try congruence; try lia;
    repeat split; intros; try lia; try congruence; try tauto.
  all: try (intuition discriminate).
  all: try match goal with
       | H : _ \/ False |- _ =>
           destruct H as [H | []]; inversion H; subst; reflexivity
       end.
  all: match goal with
       | H : forall w, Throw _ <> Throw w |- _ =>
           exfalso; eapply H; reflexivity
       end.
Qed.

(** Splits a step along its exits like [by_blocks], with the calls of
    each block. *)
Ltac by_calls e s :=
  let Hc := fresh "Hcalls" in
  pose proof (decode_block_calls_spec (eof (m_in_buf s))
                (negb (empty (vad_out e))) e
                (vad_state e (start_of e s))) as Hc;
  destruct (trace_to_vad_calls e s)
    as (Hpr & Hpx & Hpc & Hpk & Hpg & Hpn & Hpq & Hpz & Hpw);
  destruct (vad_trace_calls e (start_of e s))
    as (Hvr' & Hvx' & Hvc & Hvk & Hvg & Hvn & Hvq & Hvz & Hvw);
  destruct (decode_start_handles e s) as (Hhm & Hhs & Hhb);
  destruct (decode_start_fields e s) as (Hfm & Hfx & Hfr & Hfb & Hfs);
  destruct (trace_to_vad_quiet e s) as (Hqf & Hqd & Hqt & Hql);
  destruct (vad_trace_quiet e (start_of e s)) as (Hwf & Hwd & Hwt & Hwl);
  by_blocks e s;
  rewrite ?released_app, ?frees_app, ?creates_app, ?decode_calls_app,
    ?freed_strings_app, ?notified_app, ?restarts_app, ?time_resets_app,
    ?texts_app;
  rewrite ?Hpr, ?Hpx, ?Hpc, ?Hpk, ?Hpg, ?Hpn, ?Hpq, ?Hpz, ?Hpw,
    ?Hvr', ?Hvx', ?Hvc, ?Hvk, ?Hvg, ?Hvn, ?Hvq, ?Hvz, ?Hvw,
    ?Hqf, ?Hqd, ?Hqt, ?Hql, ?Hwf, ?Hwd, ?Hwl;
  cbn [released frees creates decode_calls freed_strings notified restarts
       time_resets texts flushes fed logged_final app Nat.add];
  destruct Hc as [Hcm Hcst Hcfin Hcopen Hclive Hcrel Hcin Hcfree Hccre
                  Hcdec Hcres Hcvad Hctext Hcauto Hcman];
  unfold result_of, state_of, trace_of in *; cbn [fst snd] in *;
  rewrite ?Hhm in Hcm; rewrite ?Hfr in Hcst;
  rewrite ?Hfm, ?Hfx in Hcfin; rewrite ?Hfm, ?Hfx, ?Hhm in Hcopen;
  rewrite ?Hhm in Hclive; rewrite ?Hhs in Hccre;
  rewrite ?Hfx in Hctext;
  rewrite ?Hfm, ?Hfs in Hcauto; rewrite ?Hfm, ?Hfs in Hcman.

(** X1. A step releases the claimed frame exactly once when it returns,
    on the shutdown exit as at its end; a step that could not claim the
    frame, or that ends in a [throw], releases nothing.  A step that
    claimed the frame and returns leaves the input buffer cleared. *)
Theorem frame_released_when_step_returns e s :
  released (trace_of (process_buff e s))
  = match result_of (process_buff e s) with
    | Ret _ => if lock_ok e then 1 else 0
    | Throw _ => 0
    end
  /\ (lock_ok e = true ->
      (forall w, result_of (process_buff e s) <> Throw w) ->
      m_in_buf (state_of (process_buff e s)) = mk_in_buf [] false false).
Proof.
  split.
  - by_calls e s; try reflexivity. rewrite Hcrel. reflexivity.
  - by_calls e s; intros Hl Hr; try discriminate; auto.
    exfalso. eapply Hr. reflexivity.
Qed.

Lemma frame_released_when_step_returns_witness :
  m_in_buf (state_of (process_buff (env_ok [1%Z]) engine_mid_utterance))
  = mk_in_buf [] false false.
Proof.
  refine (proj2 (frame_released_when_step_returns
                   (env_ok [1%Z]) engine_mid_utterance) eq_refl _).
  intros w. discriminate.
Defined.

(** One step keeps the model handle, the speech mode and the
    speech-started flag. *)
Lemma process_buff_keeps e s :
  m_ds_model (state_of (process_buff e s)) = m_ds_model s
  /\ m_speech_mode (state_of (process_buff e s)) = m_speech_mode s
  /\ m_speech_started (state_of (process_buff e s)) = m_speech_started s.
Proof.
  destruct (start_of_fields e s) as (Hsm & _ & _ & Hsr & _).
  assert (Hmo : m_ds_model (start_of e s) = m_ds_model s).
  { unfold start_of. destruct (sof (m_in_buf s)); reflexivity. }
  by_calls e s; auto.
Qed.

(** A run keeps them as well. *)
Lemma run_keeps steps s :
  m_ds_model (fst (run steps s)) = m_ds_model s
  /\ m_speech_mode (fst (run steps s)) = m_speech_mode s
  /\ m_speech_started (fst (run steps s)) = m_speech_started s.
Proof.
  revert s. induction steps as [|[f e] rest IH]; intros s.
  - repeat split.
  - cbn [run].
    destruct (IH (state_of (process_buff e (set_in_buf f s))))
      as (IHm & IHo & IHs).
    destruct (run rest (state_of (process_buff e (set_in_buf f s))))
      as [s' t'].
    destruct (process_buff_keeps e (set_in_buf f s)) as (Hm & Ho & Hs).
    cbn [fst] in *. rewrite IHm, IHo, IHs, Hm, Ho, Hs. repeat split.
Qed.

(** X2. Whatever frames are processed and however the steps end (at
    their end, on a shutdown request, in a [throw]), the model handle,
    the speech mode and the speech-started flag of the engine stay as
    they were: a step only creates and destroys streams. *)
Theorem run_keeps_model_and_mode steps s e :
  let s' := fst (run steps s) in
  let s'' := state_of (process_buff e s') in
  (m_ds_model s' = m_ds_model s
   /\ m_speech_mode s' = m_speech_mode s
   /\ m_speech_started s' = m_speech_started s)
  /\ (m_ds_model s'' = m_ds_model s
      /\ m_speech_mode s'' = m_speech_mode s
      /\ m_speech_started s'' = m_speech_started s).
Proof.
  cbv zeta.
  destruct (run_keeps steps s) as (Hm & Ho & Hs).
  destruct (process_buff_keeps e (fst (run steps s))) as (Hm' & Ho' & Hs').
  rewrite Hm', Ho', Hs', Hm, Ho, Hs. repeat split.
Qed.

(** X3. When a shutdown has been requested, a step that claimed the
    frame does not decode: it feeds nothing, makes no decode call,
    flushes nothing, hands over no text and computes no [final_decode];
    unless the start-of-frame block threw, it returns
    [no_samples_needed] and the speech of this frame stays in the
    utterance buffer. *)
Theorem shutdown_skips_decode e s :
  lock_ok e = true -> exit_requested e = true ->
  let out := process_buff e s in
  fed (trace_of out) = []
  /\ decode_calls (trace_of out) = 0
  /\ flushes (trace_of out) = []
  /\ texts (trace_of out) = []
  /\ logged_final (trace_of out) = None
  /\ m_intermediate_text (state_of out) = m_intermediate_text s
  /\ (sof_throws e s = false ->
      result_of out = Ret no_samples_needed
      /\ m_speech_buf (state_of out)
         = (if sof (m_in_buf s) then [] else m_speech_buf s) ++ vad_out e).
Proof.
  cbv zeta.
  destruct (start_of_fields e s) as (_ & Hsx & _ & _ & _).
  by_calls e s; intros Hl Hx; try discriminate; repeat split; auto;
    discriminate.
Qed.

Lemma shutdown_skips_decode_witness :
  fed (trace_of (process_buff env_shutdown engine_mid_utterance)) = []
  /\ m_speech_buf (state_of (process_buff env_shutdown engine_mid_utterance))
     = [1%Z].
Proof.
  destruct (@shutdown_skips_decode env_shutdown engine_mid_utterance
              eq_refl eq_refl) as (Hf & _ & _ & _ & _ & _ & Hb).
  split; [exact Hf | exact (proj2 (Hb eq_refl))].
Defined.

(** X4. In [automatic] mode a step never reports the status [decoding]
    and never moves the engine into it; in [manual] mode a step never
    reports [speech_detected] and never moves the engine into it: the
    VAD result does not drive the status there. *)
Theorem status_not_set_in_mode e s :
  (m_speech_mode s = automatic ->
   ~ In decoding (notified (trace_of (process_buff e s)))
   /\ (m_speech_detection_status s <> decoding ->
       m_speech_detection_status (state_of (process_buff e s)) <> decoding))
  /\ (m_speech_mode s = manual ->
      ~ In speech_detected (notified (trace_of (process_buff e s)))
      /\ (m_speech_detection_status (state_of (process_buff e s))
          = speech_detected ->
          m_speech_detection_status s = speech_detected)).
Proof.
  destruct (start_of_fields e s) as (Hsm & _ & Hss & _ & _).
  split; intros Hmode.
  - by_calls e s; rewrite ?Hsm, ?Hss, ?Hfs, ?Hmode; cbn [mode_eqb negb andb];
      rewrite ?andb_true_r.
    + split; [intros [] | auto].
    + split.
      * intros Hin. apply in_app_or in Hin. destruct Hin as [Hin | []].
        destruct (negb (empty (vad_out e))
                  && negb (status_eqb (m_speech_detection_status s)
                                      speech_detected));
          cbn in Hin; intuition discriminate.
      * destruct (negb (empty (vad_out e))); [discriminate | auto].
    + rewrite Hmode in Hcauto. cbn [mode_eqb negb andb] in Hcauto.
      rewrite ?andb_true_r in Hcauto.
      destruct (Hcauto eq_refl) as [Hn Hst]. split.
      * intros Hin. apply in_app_or in Hin. destruct Hin as [Hin | Hin];
          [| exact (Hn Hin)].
        destruct (negb (empty (vad_out e))
                  && negb (status_eqb (m_speech_detection_status s)
                                      speech_detected));
          cbn in Hin; intuition discriminate.
      * intros Hs0. apply Hst.
        destruct (negb (empty (vad_out e))); [discriminate | exact Hs0].
    + split; [intros [] | auto].
  - by_calls e s; rewrite ?Hsm, ?Hss, ?Hfs, ?Hmode;
      cbn [mode_eqb negb andb]; rewrite ?andb_false_r; cbn [andb app].
    + split; [intros [] | auto].
    + split; [intros [] | auto].
    + rewrite Hmode in Hcman. cbn [mode_eqb negb andb] in Hcman.
      rewrite ?andb_false_r in Hcman.
      exact (Hcman eq_refl).
    + split; [intros [] | auto].
Qed.

Lemma status_not_set_in_mode_witness :
  ~ In decoding
      (notified (trace_of (process_buff (env_ok []) engine_mid_utterance))).
Proof.
  exact (proj1 (proj1 (status_not_set_in_mode (env_ok []) engine_mid_utterance)
                      eq_refl)).
Defined.

(** X5. A step that made a final decode leaves no stream, whether or not
    one was open; a step that made an intermediate decode and returned
    leaves a stream open for the frames to come, provided the model is
    loaded. *)
Theorem stream_after_step e s fd :
  logged_final (trace_of (process_buff e s)) = Some fd ->
  (fd = true -> m_ds_stream (state_of (process_buff e s)) = None)
  /\ (fd = false ->
      result_of (process_buff e s) = Ret wait_for_samples ->
      is_set (m_ds_model s) = true ->
      is_set (m_ds_stream (state_of (process_buff e s))) = true).
Proof.
  by_calls e s; try discriminate.
  rewrite Hdl. intros [= <-]. split; [exact Hcfin | exact Hcopen].
Qed.

Lemma stream_after_step_witness :
  m_ds_stream (state_of (process_buff (env_ok []) engine_mid_utterance))
  = None.
Proof.
  exact (proj1 (@stream_after_step (env_ok []) engine_mid_utterance true
                  eq_refl) eq_refl).
Defined.

(** The streams that a step frees. *)
Lemma stream_freed_only_on_sof_eq e s :
  frees (trace_of (process_buff e s))
  = if lock_ok e && sof (m_in_buf s) && is_set (m_ds_stream s)
    then [m_ds_stream s] else [].
Proof.
  by_calls e s; rewrite ?Hcfree, ?app_nil_r; reflexivity.
Qed.

(** X6. A step frees a stream only in its start-of-frame block: exactly
    the stream that was open when a frame marked [sof] is claimed, once,
    and before the new stream is created; no frame without the mark, and
    no decode, frees a stream. *)
Theorem stream_freed_only_on_sof e s :
  frees (trace_of (process_buff e s))
  = (if lock_ok e && sof (m_in_buf s) && is_set (m_ds_stream s)
     then [m_ds_stream s] else [])
  /\ (lock_ok e = true -> sof (m_in_buf s) = true ->
      forall h, m_ds_stream s = Some h ->
      exists before after,
        trace_of (process_buff e s)
        = before ++ STT_FreeStream (Some h) :: after
        /\ creates before = 0).
Proof.
  split; [apply stream_freed_only_on_sof_eq |].
  intros Hl Hsf h Hs.
  exists [LOGD (log_process_samples (m_speech_mode s) (size (m_in_buf s))
                  (length (m_speech_buf s)) true (eof (m_in_buf s)));
          start_time_reset; vad_reset].
  rewrite (process_buff_blocks e s). cbv zeta.
  unfold trace_to_vad, start_trace. rewrite Hl, Hsf, Hs. cbn [negb is_set app].
  destruct (sof_throws e s); [eexists; split; reflexivity |].
  destruct (exit_requested e); [eexists; split; reflexivity |].
  destruct (decode_block _ _ e _) as [[r s3] t3].
  eexists; split; reflexivity.
Qed.

Lemma stream_freed_only_on_sof_witness :
  exists before after,
    trace_of (process_buff (env_ok [3%Z])
                (set_in_buf first_frame engine_mid_utterance))
    = before ++ STT_FreeStream (Some 7%N) :: after
    /\ creates before = 0.
Proof.
  exact (proj2 (stream_freed_only_on_sof
                  (env_ok [3%Z]) (set_in_buf first_frame engine_mid_utterance))
               eq_refl eq_refl 7%N eq_refl).
Defined.

(** One step feeds live streams only, when the model is loaded. *)
Lemma process_buff_fed_live e s :
  is_set (m_ds_model s) = true ->
  forall h b, In (h, b) (fed (trace_of (process_buff e s))) ->
              is_set h = true.
Proof.
  intros Hmo. by_calls e s; intros h b Hin; try solve [destruct Hin].
  exact (Hclive Hmo h b Hin).
Qed.

(** A run feeds live streams only, when the model is loaded. *)
Lemma run_fed_live steps s :
  is_set (m_ds_model s) = true ->
  Forall (fun hb => is_set (fst hb) = true) (fed (snd (run steps s))).
Proof.
  revert s. induction steps as [|[f e] rest IH]; intros s Hmo.
  - constructor.
  - cbn [run].
    destruct (process_buff_keeps e (set_in_buf f s)) as (Hm & _ & _).
    assert (Hmo' : is_set (m_ds_model
                             (state_of (process_buff e (set_in_buf f s))))
                   = true) by (rewrite Hm; exact Hmo).
    specialize (IH _ Hmo').
    destruct (run rest (state_of (process_buff e (set_in_buf f s))))
      as [s' t'].
    cbn [snd] in *. rewrite fed_app. apply Forall_app. split; [| exact IH].
    apply Forall_forall. intros [h b] Hin.
    exact (process_buff_fed_live e (set_in_buf f s) Hmo h b Hin).
Qed.

(** X8. Once the model is loaded, no step of a run feeds audio to a null
    stream, however the earlier steps ended: every
    [STT_FeedAudioContent] of the run, and of each of its steps, goes to
    a non-null stream. *)
Theorem run_feeds_live_streams steps s :
  is_set (m_ds_model s) = true ->
  Forall (fun hb => is_set (fst hb) = true) (fed (snd (run steps s)))
  /\ forall e h b,
      In (h, b) (fed (trace_of (process_buff e (fst (run steps s))))) ->
      is_set h = true.
Proof.
  intros Hmo. split; [exact (run_fed_live steps s Hmo) |].
  intros e. apply process_buff_fed_live.
  destruct (run_keeps steps s) as (Hm & _ & _). now rewrite Hm.
Qed.

Lemma run_feeds_live_streams_witness :
  Forall (fun hb => is_set (fst hb) = true)
         (fed (snd (run [(first_frame, env_ok [3%Z; 4%Z]);
                         (silent_frame, env_ok [])]
                        (fresh_engine automatic)))).
Proof.
  exact (proj1 (@run_feeds_live_streams
                  [(first_frame, env_ok [3%Z; 4%Z]); (silent_frame, env_ok [])]
                  (fresh_engine automatic) eq_refl)).
Defined.

(** X9. The sentence timer is restarted exactly in the steps in which the
    VAD finds speech, once, and it is cleared exactly in the steps that
    claim a frame marked [sof], once. *)
Theorem sentence_timer_restarts e s :
  restarts (trace_of (process_buff e s))
  = (if lock_ok e && negb (sof_throws e s) && negb (empty (vad_out e))
     then 1 else 0)
  /\ time_resets (trace_of (process_buff e s))
     = (if lock_ok e && sof (m_in_buf s) then 1 else 0).
Proof.
  by_calls e s; destruct Hcres as [Hcr Hct]; rewrite ?Hcr, ?Hct;
    destruct (sof (m_in_buf s)), (empty (vad_out e)); split; reflexivity.
Qed.

(** ** More about streams *)

(** X10. [create_ds_stream] never replaces a live stream: with one it
    returns without a backend call.  When it returns normally and the
    model is loaded, a stream is live; it asks the backend at most
    once. *)
Theorem create_ds_stream_leaves_live_stream e s :
  (forall h, m_ds_stream s = Some h -> create_ds_stream e s = (Ret tt, s, []))
  /\ (result_of (create_ds_stream e s) = Ret tt ->
      is_set (m_ds_model s) = true ->
      is_set (m_ds_stream (state_of (create_ds_stream e s))) = true)
  /\ creates (trace_of (create_ds_stream e s)) <= 1.
Proof.
  split; [| split].
  - intros h Hs. apply create_ds_stream_skip. now rewrite Hs.
  - intros Hr Hmo. destruct (m_ds_stream s) as [h|] eqn:Hs.
    + rewrite (create_ds_stream_skip e s) by now rewrite Hs.
      cbn. now rewrite Hs.
    + revert Hr. rewrite (create_ds_stream_call e s Hs Hmo).
      destruct (create_fails e) eqn:Hf; [discriminate |].
      intros _. cbn. unfold create_fails in Hf.
      apply orb_false_iff in Hf. destruct Hf as [_ Hf].
      now apply negb_false_iff in Hf.
  - destruct (is_set (m_ds_stream s) || negb (is_set (m_ds_model s))) eqn:Hk.
    + rewrite (create_ds_stream_skip e s Hk). cbn. lia.
    + apply orb_false_iff in Hk. destruct Hk as [Hs Hmo].
      apply negb_false_iff in Hmo.
      destruct (m_ds_stream s) eqn:Hs'; [discriminate |].
      rewrite (create_ds_stream_call e s Hs' Hmo).
      destruct (create_fails e); cbn; lia.
Qed.

Lemma create_ds_stream_leaves_live_stream_witness :
  is_set (m_ds_stream (state_of (create_ds_stream (env_ok [])
                                   (fresh_engine manual)))) = true.
Proof.
  exact (proj1 (proj2 (create_ds_stream_leaves_live_stream
                         (env_ok []) (fresh_engine manual)))
               eq_refl eq_refl).
Defined.

(** X12. A stream that a final decode finished is not freed afterwards:
    the decode calls [STT_FinishStream] once and drops the pointer, so
    that the [free_ds_stream] and the [reset_impl] that follow call no
    [STT_FreeStream], and the next start-of-frame block frees nothing. *)
Theorem finished_stream_not_freed buf e s :
  let s' := state_of (decode_speech buf true e s) in
  frees (trace_of (decode_speech buf true e s)) = []
  /\ (forall e', free_ds_stream e' s' = (Ret tt, s', []))
  /\ (forall e', frees (trace_of (reset_impl e' s')) = [])
  /\ (forall e' f, frees (trace_of (process_buff e' (set_in_buf f s'))) = []).
Proof.
  cbv zeta.
  assert (Hnone : m_ds_stream (state_of (decode_speech buf true e s)) = None
                  /\ frees (trace_of (decode_speech buf true e s)) = []).
  { destruct (m_ds_stream s) as [h|] eqn:Hs.
    - rewrite (decode_speech_live buf true e s Hs).
      unfold state_of, trace_of. cbn [fst snd].
      destruct (opt_neq (m_intermediate_text s) (decoded e)); split;
        reflexivity.
    - rewrite (decode_speech_skip buf e s Hs). split; [exact Hs | reflexivity]. }
  destruct Hnone as [Hs' Hf].
  split; [exact Hf |]. clear Hf. revert Hs'.
  generalize (state_of (decode_speech buf true e s)). intros s' Hs'.
  split; [| split].
  - intros e'. unfold free_ds_stream. cbn. rewrite Hs'. reflexivity.
  - intros e'. unfold reset_impl, free_ds_stream. cbn. rewrite Hs'.
    reflexivity.
  - intros e' f. rewrite stream_freed_only_on_sof_eq.
    cbn [set_in_buf m_ds_stream]. rewrite Hs'. cbn.
    now rewrite andb_false_r.
Qed.

(** ** The library, the model and the destructor *)

(** [open_ds_lib] when [dlopen] fails and when it succeeds. *)
Lemma open_ds_lib_no_lib (ok : ds_api -> bool) le w :
  dlopen_result le = None ->
  open_ds_lib ok le w
  = (Throw "failed to open ds lib", set_dslib_handle None w,
     [dl_open "libstt.so"; LOGE "failed to open ds lib"]).
Proof.
  destruct w as [s files lib api]. destruct le as [dlo dls cms cmh].
  cbn [dlopen_result]. intros ->. reflexivity.
Qed.

Lemma open_ds_lib_with_lib (ok : ds_api -> bool) le w h :
  dlopen_result le = Some h ->
  open_ds_lib ok le w
  = (if ok (resolved_api le) then Ret tt
     else Throw "failed to register ds api",
     mk_wrapper (engine_of w) (m_model_file w) (Some h) (resolved_api le),
     [dl_open "libstt.so"]
     ++ map (fun n => dl_sym (Some h) n) ds_symbols
     ++ (if ok (resolved_api le) then []
         else [LOGE "failed to register ds api"])).
Proof.
  destruct w as [s files lib api]. destruct le as [dlo dls cms cmh].
  cbn [dlopen_result]. intros ->.
  cbv. destruct (ok _); reflexivity.
Qed.

(** X13. [open_ds_lib] throws "failed to open ds lib" when [dlopen]
    returns null, and then resolves no symbol.  With a library handle it
    resolves the nine entry points from that handle, in order, stores for
    each the pointer that [dlsym] returned for its own name, and throws
    "failed to register ds api" exactly when [ok] rejects the result. *)
Theorem open_ds_lib_binds_symbols (ok : ds_api -> bool) le w :
  (dlopen_result le = None ->
   result_of_l (open_ds_lib ok le w) = Throw "failed to open ds lib"
   /\ symbols (trace_of_l (open_ds_lib ok le w)) = []
   /\ m_ds_api (wrapper_of (open_ds_lib ok le w)) = m_ds_api w)
  /\ (forall h,
      dlopen_result le = Some h ->
      let out := open_ds_lib ok le w in
      m_dslib_handle (wrapper_of out) = Some h
      /\ symbols (trace_of_l out) = map (fun n => (Some h, n)) ds_symbols
      /\ m_ds_api (wrapper_of out) = resolved_api le
      /\ result_of_l out
         = if ok (resolved_api le) then Ret tt
           else Throw "failed to register ds api").
Proof.
  split.
  - intros Hn. rewrite (open_ds_lib_no_lib ok le w Hn). repeat split.
  - intros h Hh. cbv zeta. rewrite (open_ds_lib_with_lib ok le w Hh).
    unfold result_of_l, wrapper_of, trace_of_l. cbn [fst snd].
    destruct (ok (resolved_api le)); repeat split.
Qed.

Lemma open_ds_lib_binds_symbols_witness :
  result_of_l (open_ds_lib all_resolved lib_env_ok
                 (sample_wrapper (fresh_engine manual))) = Ret tt.
Proof.
  exact (proj2 (proj2 (proj2
           (proj2 (open_ds_lib_binds_symbols all_resolved lib_env_ok
                     (sample_wrapper (fresh_engine manual)))
                  9%N eq_refl)))).
Defined.

(** What [create_ds_model] does when there is no model yet. *)
Lemma create_ds_model_call le w :
  m_ds_model (engine_of w) = None ->
  create_ds_model le w =
  if create_model_fails le
  then (Throw "failed to create ds model",
        set_engine (set_ds_model (create_model_handle le) (engine_of w)) w,
        [LOGD_msg "creating ds model"; STT_CreateModel (fst (m_model_file w));
         LOGE "failed to create ds model"])
  else (Ret tt,
        set_engine (set_ds_model (create_model_handle le) (engine_of w)) w,
        [LOGD_msg "creating ds model"; STT_CreateModel (fst (m_model_file w))]
        ++ (if str_empty (snd (m_model_file w)) then []
            else [STT_EnableExternalScorer (create_model_handle le)
                    (snd (m_model_file w))])
        ++ [LOGD_msg "ds model created"]).
Proof.
  destruct w as [[mode ib sb model stream text status started] [mf sf] lib api].
  destruct le as [dlo dls cms cmh].
  cbn. intros ->. unfold create_model_fails. cbn.
  destruct (cms =? 0)%Z, cmh as [m|], sf as [|c sf']; reflexivity.
Qed.

(** With a model, [create_ds_model] returns at once. *)
Lemma create_ds_model_skip le w :
  is_set (m_ds_model (engine_of w)) = true ->
  create_ds_model le w = (Ret tt, w, []).
Proof.
  intros Hm. unfold create_ds_model. cbn. rewrite Hm. reflexivity.
Qed.

(** X14. [create_ds_model] creates the model once: with a model it
    returns without a backend call.  Without one it asks the backend for
    the model file; on an error status or a null model it throws "failed
    to create ds model" and enables no scorer; otherwise the model is the
    one created and the external scorer is enabled on it exactly when a
    scorer file is configured. *)
Theorem create_ds_model_once le w :
  (is_set (m_ds_model (engine_of w)) = true ->
   create_ds_model le w = (Ret tt, w, []))
  /\ (m_ds_model (engine_of w) = None ->
      let out := create_ds_model le w in
      models_created (trace_of_l out) = [fst (m_model_file w)]
      /\ (create_model_fails le = true ->
          result_of_l out = Throw "failed to create ds model"
          /\ scorers (trace_of_l out) = [])
      /\ (create_model_fails le = false ->
          result_of_l out = Ret tt
          /\ m_ds_model (engine_of (wrapper_of out)) = create_model_handle le
          /\ is_set (m_ds_model (engine_of (wrapper_of out))) = true
          /\ scorers (trace_of_l out)
             = if str_empty (snd (m_model_file w)) then []
               else [(create_model_handle le, snd (m_model_file w))])).
Proof.
  split.
  - apply create_ds_model_skip.
  - intros Hm. cbv zeta. rewrite (create_ds_model_call le w Hm).
    destruct (create_model_fails le) eqn:Hf.
    + repeat split; discriminate.
    + unfold result_of_l, wrapper_of, trace_of_l. cbn [fst snd].
      assert (Hset : is_set (create_model_handle le) = true).
      { unfold create_model_fails in Hf. apply orb_false_iff in Hf.
        destruct Hf as [_ Hf]. now apply negb_false_iff in Hf. }
      destruct (str_empty (snd (m_model_file w)));
        repeat split; try discriminate; auto.
Qed.

Lemma create_ds_model_once_witness :
  scorers (trace_of_l (create_ds_model lib_env_ok
                         (sample_wrapper engine_without_model)))
  = [(Some 1%N, "kenlm.scorer")].
Proof.
  destruct (proj2 (create_ds_model_once lib_env_ok
                     (sample_wrapper engine_without_model)) eq_refl)
    as (_ & _ & Hok).
  exact (proj2 (proj2 (proj2 (Hok eq_refl)))).
Defined.

(** X15. When [start_processing_impl] has returned, the model is loaded
    and a second call creates nothing; every run of processing steps of
    the started engine then feeds audio to non-null streams only. *)
Theorem started_engine_feeds_live_streams le w :
  result_of_l (start_processing_impl le w) = Ret tt ->
  let w' := wrapper_of (start_processing_impl le w) in
  is_set (m_ds_model (engine_of w')) = true
  /\ (forall le', start_processing_impl le' w' = (Ret tt, w', []))
  /\ forall steps,
      Forall (fun hb => is_set (fst hb) = true)
             (fed (snd (run steps (engine_of w')))).
Proof.
  intros Hr. cbv zeta.
  assert (Hm : is_set (m_ds_model
                         (engine_of (wrapper_of (start_processing_impl le w))))
               = true).
  { unfold start_processing_impl in *.
    destruct (m_ds_model (engine_of w)) as [m|] eqn:Hmo.
    - assert (Hs : is_set (m_ds_model (engine_of w)) = true)
        by now rewrite Hmo.
      rewrite (create_ds_model_skip le w Hs). exact Hs.
    - revert Hr. rewrite (create_ds_model_call le w Hmo).
      destruct (create_model_fails le) eqn:Hf; [discriminate |].
      intros _. cbn. unfold create_model_fails in Hf.
      apply orb_false_iff in Hf. destruct Hf as [_ Hf].
      now apply negb_false_iff in Hf. }
  split; [exact Hm | split].
  - intros le'. exact (create_ds_model_skip le' _ Hm).
  - intros steps. apply run_fed_live. exact Hm.
Qed.

Lemma started_engine_feeds_live_streams_witness :
  is_set (m_ds_model (engine_of (wrapper_of
            (start_processing_impl lib_env_ok
               (sample_wrapper engine_without_model))))) = true.
Proof.
  exact (proj1 (@started_engine_feeds_live_streams lib_env_ok
                  (sample_wrapper engine_without_model) eq_refl)).
Defined.

(** The destructor after [stop]. *)
Lemma dtor_run (ok : ds_api -> bool) (stop : L unit) le w w1 t1 :
  stop le w = (Ret tt, w1, t1) ->
  deepspeech_wrapper_dtor ok stop le w
  = (Ret tt,
     mk_wrapper (if ok (m_ds_api w1)
                 then set_ds_model None (set_ds_stream None (engine_of w1))
                 else engine_of w1)
                (m_model_file w1) None no_api,
     [LOGD_msg "ds dtor"] ++ t1
     ++ (if ok (m_ds_api w1)
         then (if is_set (m_ds_stream (engine_of w1))
               then [engine_event (STT_FreeStream (m_ds_stream (engine_of w1)))]
               else [])
              ++ (if is_set (m_ds_model (engine_of w1))
                  then [STT_FreeModel (m_ds_model (engine_of w1))]
                  else [])
         else [])
     ++ (if is_set (m_dslib_handle w1) then [dl_close (m_dslib_handle w1)]
         else [])).
Proof.
  intros Hstop.
  unfold deepspeech_wrapper_dtor.
  change (@bind L Monad_L) with (@L_bind).
  change (@ret L Monad_L) with (@L_ret).
  unfold L_bind, get_w, when_l, modify_w, emit_l, dlclose, L_ret.
  cbn [bind ret Monad_L]. unfold L_bind, L_ret, emit_l, modify_w.
  rewrite Hstop.
  destruct w1 as [[mode ib sb model stream text status started] files lib api].
  cbn [m_ds_api engine_of m_ds_stream m_ds_model m_dslib_handle].
  destruct (ok api) eqn:Hok, stream as [st|], model as [mo|], lib as [l|];
    cbn; rewrite ?app_nil_r; rewrite <- ?app_assoc; reflexivity.
Qed.

(** X16. When [stop] has returned, the destructor returns; it frees the
    stream and then the model only if [ok] accepts the entry points, and
    each only if its pointer is not null; it then clears the entry points
    and closes the library if its handle is not null.  Afterwards there is
    no library handle and no entry point, and, if [ok] held, neither
    stream nor model. *)
Theorem dtor_releases_resources (ok : ds_api -> bool) (stop : L unit)
        le w w1 t1 :
  stop le w = (Ret tt, w1, t1) ->
  let out := deepspeech_wrapper_dtor ok stop le w in
  result_of_l out = Ret tt
  /\ trace_of_l out
     = [LOGD_msg "ds dtor"] ++ t1
       ++ (if ok (m_ds_api w1)
           then (if is_set (m_ds_stream (engine_of w1))
                 then [engine_event (STT_FreeStream (m_ds_stream (engine_of w1)))]
                 else [])
                ++ (if is_set (m_ds_model (engine_of w1))
                    then [STT_FreeModel (m_ds_model (engine_of w1))]
                    else [])
           else [])
       ++ (if is_set (m_dslib_handle w1) then [dl_close (m_dslib_handle w1)]
           else [])
  /\ m_dslib_handle (wrapper_of out) = None
  /\ m_ds_api (wrapper_of out) = no_api
  /\ (ok (m_ds_api w1) = true ->
      m_ds_stream (engine_of (wrapper_of out)) = None
      /\ m_ds_model (engine_of (wrapper_of out)) = None)
  /\ (ok (m_ds_api w1) = false ->
      engine_of (wrapper_of out) = engine_of w1).
Proof.
  intros Hstop. cbv zeta. rewrite (dtor_run ok stop le w Hstop).
  unfold result_of_l, wrapper_of, trace_of_l. cbn [fst snd engine_of].
  destruct (ok (m_ds_api w1)); repeat split; discriminate.
Qed.

Lemma dtor_releases_resources_witness :
  releases (trace_of_l (deepspeech_wrapper_dtor all_resolved stop_idle
                          lib_env_ok
                          (mk_wrapper engine_mid_utterance ("m", "")
                                      (Some 9%N)
                                      (mk_ds_api (Some 5%N) (Some 5%N)
                                         (Some 5%N) (Some 5%N) (Some 5%N)
                                         (Some 5%N) (Some 5%N) (Some 5%N)
                                         (Some 5%N)))))
  = [engine_event (STT_FreeStream (Some 7%N)); STT_FreeModel (Some 1%N);
     dl_close (Some 9%N)].
Proof.
  rewrite (proj1 (proj2 (@dtor_releases_resources
                           all_resolved stop_idle lib_env_ok _ _ _ eq_refl))).
  reflexivity.
Defined.

(** ** The VAD and the intermediate text in a step *)

Lemma vad_inputs_app a b : vad_inputs (a ++ b) = vad_inputs a ++ vad_inputs b.
Proof.
  induction a as [|ev a IH]; [reflexivity |].
  destruct ev; cbn; rewrite ?IH; reflexivity.
Qed.

Lemma vad_resets_app a b : vad_resets (a ++ b) = vad_resets a + vad_resets b.
Proof.
  induction a as [|ev a IH]; [reflexivity |].
  destruct ev; cbn; rewrite ?IH; reflexivity.
Qed.

(** The VAD calls of the first two blocks. *)
Lemma vad_calls_before_decode e s :
  vad_inputs (trace_to_vad e s) = []
  /\ vad_resets (trace_to_vad e s) = (if sof (m_in_buf s) then 1 else 0)
  /\ vad_inputs (vad_trace e (start_of e s)) = [buf (m_in_buf s)]
  /\ vad_resets (vad_trace e (start_of e s)) = 0.
Proof.
  unfold trace_to_vad, start_trace, vad_trace, start_of.
  destruct (sof (m_in_buf s)) eqn:Hsf, (is_set (m_ds_stream s)),
    (is_set (m_ds_model s)), (create_fails e), (empty (vad_out e)),
    (sentence_timeout_due e _),
    (mode_eqb (m_speech_mode _) manual),
    (status_eqb (m_speech_detection_status _) speech_detected);
    repeat split.
Qed.

(** X17. A step that claimed a frame hands the deposited samples to the
    VAD exactly once, before the input buffer is cleared, unless its
    start-of-frame block threw; the VAD is reset exactly in the steps that
    claim a frame marked [sof], once. *)
Theorem vad_sees_each_frame_once e s :
  vad_inputs (trace_of (process_buff e s))
  = (if lock_ok e && negb (sof_throws e s) then [buf (m_in_buf s)] else [])
  /\ vad_resets (trace_of (process_buff e s))
     = (if lock_ok e && sof (m_in_buf s) then 1 else 0).
Proof.
  destruct (vad_calls_before_decode e s) as (Hi1 & Hr1 & Hi2 & Hr2).
  by_calls e s; rewrite ?vad_inputs_app, ?vad_resets_app, ?Hi1, ?Hr1, ?Hi2, ?Hr2;
    cbn [vad_inputs vad_resets app];
    try (destruct Hcvad as [Hci Hcr]; rewrite Hci, Hcr);
    destruct (sof (m_in_buf s)); split; reflexivity.
Qed.

(** ** From construction to destruction *)

(** X19. An object that was constructed and then started holds the
    library handle and the model that the loader and the backend
    returned.  Its destructor, when [stop] returns without touching the
    object, releases the stream if one is open, then that model, then
    that library, each once, and leaves no handle behind. *)
Theorem constructed_object_is_released
        (ok : ds_api -> bool) (stop : L unit) le w le' ts :
  m_ds_model (engine_of w) = None ->
  let w1 := wrapper_of (deepspeech_wrapper_ctor ok le w) in
  let w2 := wrapper_of (start_processing_impl le w1) in
  result_of_l (deepspeech_wrapper_ctor ok le w) = Ret tt ->
  result_of_l (start_processing_impl le w1) = Ret tt ->
  stop le' w2 = (Ret tt, w2, ts) ->
  let out := deepspeech_wrapper_dtor ok stop le' w2 in
  is_set (m_dslib_handle w2) = true
  /\ is_set (m_ds_model (engine_of w2)) = true
  /\ releases (trace_of_l out)
     = releases ts
       ++ (if is_set (m_ds_stream (engine_of w))
           then [engine_event (STT_FreeStream (m_ds_stream (engine_of w)))]
           else [])
       ++ [STT_FreeModel (create_model_handle le);
           dl_close (dlopen_result le)]
  /\ m_dslib_handle (wrapper_of out) = None
  /\ m_ds_model (engine_of (wrapper_of out)) = None
  /\ m_ds_stream (engine_of (wrapper_of out)) = None.
Proof.
  intros Hmo. cbv zeta. unfold deepspeech_wrapper_ctor, start_processing_impl.
  destruct (dlopen_result le) as [h|] eqn:Hlib.
  2:{ rewrite (open_ds_lib_no_lib ok le w Hlib). discriminate. }
  rewrite (open_ds_lib_with_lib ok le w Hlib).
  unfold result_of_l, wrapper_of, trace_of_l. cbn [fst snd].
  destruct (ok (resolved_api le)) eqn:Hok; [| discriminate]. intros _.
  rewrite (create_ds_model_call le
             (mk_wrapper (engine_of w) (m_model_file w) (Some h)
                         (resolved_api le)) Hmo).
  destruct (create_model_fails le) eqn:Hf; [discriminate |]. intros _.
  cbn [fst snd]. intros Hstop.
  rewrite (dtor_run ok stop le' _ Hstop).
  cbn [fst snd engine_of m_ds_api m_dslib_handle set_engine].
  rewrite Hok.
  assert (Hset : is_set (create_model_handle le) = true).
  { unfold create_model_fails in Hf. apply orb_false_iff in Hf.
    destruct Hf as [_ Hf]. now apply negb_false_iff in Hf. }
  assert (Hrel : forall a b, releases (a ++ b) = releases a ++ releases b).
  { clear. induction a as [|ev a IH]; intros b; [reflexivity |].
    destruct ev as [[]| | | | | | | |]; cbn; rewrite ?IH; reflexivity. }
  destruct (engine_of w) as [mode ib sb model stream text status started].
  cbn [set_ds_model set_ds_stream m_ds_model m_ds_stream is_set].
  rewrite Hset. rewrite !Hrel. cbn [releases app is_set].
  destruct stream as [st|]; cbn; repeat split; auto.
Qed.

Lemma constructed_object_is_released_witness :
  releases (trace_of_l
              (deepspeech_wrapper_dtor all_resolved stop_idle lib_env_ok
                 (wrapper_of
                    (start_processing_impl lib_env_ok
                       (wrapper_of
                          (deepspeech_wrapper_ctor all_resolved lib_env_ok
                             (sample_wrapper engine_without_model)))))))
  = [STT_FreeModel (Some 1%N); dl_close (Some 9%N)].
Proof.
  exact (proj1 (proj2 (proj2
           (@constructed_object_is_released
              all_resolved stop_idle lib_env_ok
              (sample_wrapper engine_without_model) lib_env_ok []
              eq_refl eq_refl eq_refl eq_refl)))).
Defined.

(** ** A backend that may return a null string *)

Lemma M_bind_ext_env {A B} (m : M A) (f g : A -> M B) e s :
  (forall a s', f a e s' = g a e s') ->
  M_bind m f e s = M_bind m g e s.
Proof.
  intros H. unfold M_bind. destruct (m e s) as [[[a|w] s1] t1]; [| reflexivity].
  rewrite H. reflexivity.
Qed.

(** Over a backend that answers with the string [decoded e], the
    functions are those of the sections above. *)
Lemma decode_speech_cstr_string buf eof e s :
  decode_speech_cstr (Some (decoded e)) buf eof e s = decode_speech buf eof e s.
Proof. open_step e s. destruct eof; run_step; reflexivity. Qed.

Lemma decode_block_cstr_string eof vad_status e s :
  decode_block_cstr (Some (decoded e)) eof vad_status e s
  = decode_block eof vad_status e s.
Proof.
  unfold decode_block_cstr, decode_block.
  change (@bind M Monad_M) with (@M_bind).
  apply M_bind_ext_env; intros s1 s1'.
  apply M_bind_ext_env; intros _ s2'.
  apply M_bind_ext_env; intros s2 s2''.
  apply M_bind_ext_env; intros _ s3'.
  unfold M_bind at 1 6. rewrite decode_speech_cstr_string. reflexivity.
Qed.

Lemma process_buff_cstr_string e s :
  process_buff_cstr (Some (decoded e)) e s = process_buff e s.
Proof.
  rewrite process_buff_is_seq. unfold process_buff_cstr, process_buff_seq.
  change (@bind M Monad_M) with (@M_bind).
  apply M_bind_ext_env; intros locked s0'.
  destruct locked; [| reflexivity]. cbn [negb].
  apply M_bind_ext_env; intros s0 s0''.
  apply M_bind_ext_env; intros _ s1.
  apply M_bind_ext_env; intros _ s2.
  apply M_bind_ext_env; intros vad_status s3.
  apply M_bind_ext_env; intros exit s4.
  destruct exit; [reflexivity |].
  apply decode_block_cstr_string.
Qed.

(** A decode over a live stream: the buffer is fed and the decode call
    made; a null answer throws at once, a string is handed back to the
    backend and, if it changed, to the host. *)
Lemma decode_speech_cstr_live cstr buf eof e s h :
  m_ds_stream s = Some h ->
  decode_speech_cstr cstr buf eof e s =
  let s1 := if eof then set_ds_stream None s else s in
  let calls := [LOGD log_decoding_started; STT_FeedAudioContent (Some h) buf;
                if eof then STT_FinishStream (Some h)
                else STT_IntermediateDecode (Some h)] in
  match cstr with
  | None => (Throw null_string_error, s1, calls)
  | Some r =>
      (Ret tt,
       (if opt_neq (m_intermediate_text s) r
        then set_text (Some r) else fun s => s) s1,
       calls ++ [STT_FreeString r; LOGD log_decoded]
       ++ (if opt_neq (m_intermediate_text s) r
           then [intermediate_text_decoded r] else []))
  end.
Proof.
  intros Hs. open_step e s. cbn in Hs. subst stream.
  destruct cstr, eof; run_step; reflexivity.
Qed.

(** A final decode without a stream returns at once, whatever the
    backend would answer. *)
Lemma decode_speech_cstr_skip cstr buf e s :
  m_ds_stream s = None ->
  decode_speech_cstr cstr buf true e s = (Ret tt, s, []).
Proof.
  intros Hs. unfold decode_speech_cstr. cbn. rewrite Hs. reflexivity.
Qed.

(** A step over such a backend, along its four exits. *)
Lemma process_buff_cstr_blocks cstr e s :
  process_buff_cstr cstr e s =
  if negb (lock_ok e) then (Ret wait_for_samples, s, [])
  else if sof_throws e s
  then (Throw "failed to create ds stream", start_of e s, trace_to_vad e s)
  else
    let s2 := vad_state e (start_of e s) in
    let t2 := trace_to_vad e s ++ vad_trace e (start_of e s) in
    if exit_requested e
    then (Ret no_samples_needed, s2, t2 ++ [buf_released])
    else
      let '(r, s3, t3) :=
        decode_block_cstr cstr (eof (m_in_buf s)) (negb (empty (vad_out e)))
                          e s2 in
      (r, s3, t2 ++ t3).
Proof.
  unfold process_buff_cstr, sof_throws, start_of, trace_to_vad.
  change (@bind M Monad_M) with (@M_bind).
  change (@ret M Monad_M) with (@M_ret).
  unfold M_bind, lock_buff_for_processing, thread_exit_requested, get, ask,
    emit, M_ret, when, free_buf, in_buf_clear, modify.
  cbn [bind ret Monad_M].
  unfold M_bind, M_ret, emit, modify.
  destruct (lock_ok e); [| reflexivity]. cbn [negb app].
  destruct (sof (m_in_buf s)); cbn [andb].
  - rewrite start_block_eq.
    destruct (is_set (m_ds_model s) && create_fails e); [reflexivity |].
    rewrite vad_block_eq.
    destruct (exit_requested e); cbn [app].
    + rewrite <- !app_assoc. reflexivity.
    + destruct (decode_block_cstr _ _ _ e _) as [[r s3] t3].
      rewrite <- !app_assoc. reflexivity.
  - rewrite vad_block_eq.
    destruct (exit_requested e); cbn [app].
    + reflexivity.
    + destruct (decode_block_cstr _ _ _ e _) as [[r s3] t3]. reflexivity.
Qed.

Lemma decode_block_cstr_spec cstr eof vad_status e s :
  decode_block_cstr_post cstr eof vad_status s
                         (decode_block_cstr cstr eof vad_status e s).
Proof.
  generalize (eq_refl (decode_block_cstr cstr eof vad_status e s)).
  generalize (decode_block_cstr cstr eof vad_status e s) at 2 3.
  open_step e s. intros out.
  destruct cstr as [r|], eof, vad_status; run_step.
  all: intros <-; constructor; cbn; intros;
    try reflexivity; try discriminate; try congruence; try lia; auto.
  all: repeat split; intros; try reflexivity; try discriminate;
    try congruence; try lia; auto.
  all: try solve [right; eexists; reflexivity].
  all: try solve [left; reflexivity].
  all: try solve [right; unfold null_string_error; repeat split;
                  try congruence; eexists; reflexivity].
  all: try (intuition discriminate).
  all: try (intuition congruence).
Qed.

(** Splits a step over such a backend along its exits, with what is
    known of each block. *)
Ltac by_cstr cstr e s :=
  let Hc := fresh "Hcstr" in
  pose proof (decode_block_cstr_spec cstr (eof (m_in_buf s))
                (negb (empty (vad_out e))) e
                (vad_state e (start_of e s))) as Hc;
  destruct (trace_to_vad_calls e s)
    as (Hpr & Hpx & Hpc & Hpk & Hpg & Hpn & Hpq & Hpz & Hpw);
  destruct (vad_trace_calls e (start_of e s))
    as (Hvr' & Hvx' & Hvc & Hvk & Hvg & Hvn & Hvq & Hvz & Hvw);
  destruct (decode_start_handles e s) as (Hhm & Hhs & Hhb);
  destruct (decode_start_fields e s) as (Hfm & Hfx & Hfr & Hfb & Hfs);
  destruct (trace_to_vad_quiet e s) as (Hqf & Hqd & Hqt & Hql);
  destruct (vad_trace_quiet e (start_of e s)) as (Hwf & Hwd & Hwt & Hwl);
  rewrite !(process_buff_cstr_blocks cstr e s); cbv zeta;
  destruct (lock_ok e) eqn:Hlock; cbn [negb andb];
  [ destruct (sof_throws e s) eqn:Hsof; cbn [negb andb];
    [ | destruct (exit_requested e) eqn:Hexit; cbn [negb andb];
        [ | destruct (decode_block_cstr cstr (eof (m_in_buf s))
                        (negb (empty (vad_out e))) e
                        (vad_state e (start_of e s)))
              as [[r s3] t3];
            destruct Hc as [Hlog Hflr Hfl Hfin Hres Hfed Hmode Hret Hnot
                            Hthr Hcre Hdec Hfree Htext];
            unfold result_of, state_of, trace_of in *; cbn [fst snd] in *;
            rewrite ?Hfm, ?Hfx in Hlog; rewrite ?Hfm, ?Hfx in Hflr;
            rewrite ?Hfm, ?Hfx in Hfl; rewrite ?Hfm, ?Hfx in Hfin;
            rewrite ?Hfb in Hfed; rewrite ?Hfm in Hmode;
            rewrite ?Hfb, ?Hfs in Hnot; rewrite ?Hfb in Hthr;
            rewrite ?Hhs in Hcre; rewrite ?Hfx in Htext ] ]
  | ];
  unfold result_of, state_of, trace_of in *; cbn [fst snd] in *;
  rewrite ?flushes_app, ?fed_app, ?logged_final_app, ?released_app,
    ?creates_app, ?decode_calls_app, ?freed_strings_app, ?texts_app;
  rewrite ?Hpr, ?Hpc, ?Hpk, ?Hpg, ?Hpw, ?Hvr', ?Hvc, ?Hvk, ?Hvg, ?Hvw,
    ?Hqf, ?Hqd, ?Hql, ?Hwf, ?Hwd, ?Hwl;
  cbn [released creates decode_calls freed_strings texts flushes fed
       logged_final app Nat.add length].




(** What one step feeds: nothing, or the buffer it started with
    (dropped on [sof]) followed by its VAD output. *)
Lemma process_buff_cstr_fed cstr e s :
  fed (trace_of (process_buff_cstr cstr e s)) = []
  \/ exists h,
      fed (trace_of (process_buff_cstr cstr e s))
      = [(h, (if sof (m_in_buf s) then [] else m_speech_buf s) ++ vad_out e)].
Proof. by_cstr cstr e s; auto. Qed.

(** The buffer after a step that computed [final_decode]: empty when the
    step ran to its end, as accumulated when it threw. *)
Lemma process_buff_cstr_buf cstr e s fd :
  logged_final (trace_of (process_buff_cstr cstr e s)) = Some fd ->
  (result_of (process_buff_cstr cstr e s) = Ret wait_for_samples ->
   m_speech_buf (state_of (process_buff_cstr cstr e s)) = [])
  /\ (forall w,
         result_of (process_buff_cstr cstr e s) = Throw w ->
         m_speech_buf (state_of (process_buff_cstr cstr e s))
         = (if sof (m_in_buf s) then [] else m_speech_buf s) ++ vad_out e
         /\ ((w = "failed to create ds stream"
              /\ fed (trace_of (process_buff_cstr cstr e s)) = [])
             \/ (cstr = None
                 /\ exists h,
                     fed (trace_of (process_buff_cstr cstr e s))
                     = [(h, (if sof (m_in_buf s) then [] else m_speech_buf s)
                            ++ vad_out e)]))).
Proof.
  by_cstr cstr e s; try discriminate.
  intros _. split.
  - intros Hr. apply Hret, Hr.
  - intros w Hw. split.
    + apply Hnot. rewrite Hw. discriminate.
    + destruct (Hthr w Hw) as [(-> & Hf & _) | (_ & -> & Hf & _)].
      * left. split; [reflexivity | exact Hf].
      * right. split; [reflexivity | exact Hf].
Qed.

(** C8, amended.  When the decode step of [process_buff] returns (no-op,
    intermediate or final decode) the buffer is cleared, so a step that
    runs to its end leaves it empty and the step after it feeds its own
    VAD output only; a step feeds the backend at most once, with the
    buffer it started with (dropped on [sof]) followed by the VAD output
    of this step.  When the decode throws, the buffer is not cleared and
    stays as accumulated: either the stream could not be created and
    nothing was fed, or the backend answered the decode call with a null
    string, after the buffer was fed; the next step without [sof] then
    feeds, if it feeds, these samples again, followed by its own VAD
    output.  In [single_sentence] and [automatic] mode every step,
    however it ends, keeps the buffer empty unless the status is
    [speech_detected] or [decoding]. *)
Theorem speech_buf_cleared_after_decode cstr e s :
  let out := process_buff_cstr cstr e s in
  let acc := (if sof (m_in_buf s) then [] else m_speech_buf s) ++ vad_out e in
  (forall fd,
      logged_final (trace_of out) = Some fd ->
      result_of out = Ret wait_for_samples ->
      m_speech_buf (state_of out) = []
      /\ forall cstr' f' e',
          let next := process_buff_cstr cstr' e' (set_in_buf f' (state_of out)) in
          fed (trace_of next) = []
          \/ exists h, fed (trace_of next) = [(h, vad_out e')])
  /\ (fed (trace_of out) = [] \/ exists h, fed (trace_of out) = [(h, acc)])
  /\ (forall fd w,
      logged_final (trace_of out) = Some fd ->
      result_of out = Throw w ->
      m_speech_buf (state_of out) = acc
      /\ ((w = "failed to create ds stream" /\ fed (trace_of out) = [])
          \/ (cstr = None /\ exists h, fed (trace_of out) = [(h, acc)]))
      /\ forall cstr' f' e',
          sof f' = false ->
          let next := process_buff_cstr cstr' e' (set_in_buf f' (state_of out)) in
          fed (trace_of next) = []
          \/ exists h, fed (trace_of next) = [(h, acc ++ vad_out e')])
  /\ (mode_eqb (m_speech_mode s) manual = false ->
      buf_status_ok s = true ->
      buf_status_ok (state_of out) = true).
Proof.
  cbv zeta. split; [| split; [apply process_buff_cstr_fed | split]].
  - intros fd Hfd Hres.
    pose proof (proj1 (process_buff_cstr_buf cstr e s Hfd) Hres) as Hb.
    split; [exact Hb |]. intros cstr' f' e'.
    destruct (process_buff_cstr_fed cstr' e'
                (set_in_buf f' (state_of (process_buff_cstr cstr e s))))
      as [H | [h H]]; [left; exact H | right; exists h].
    rewrite H. cbn [set_in_buf m_in_buf m_speech_buf]. rewrite Hb.
    destruct (sof f'); reflexivity.
  - intros fd w Hfd Hres.
    destruct (proj2 (process_buff_cstr_buf cstr e s Hfd) w Hres) as [Hb Hw].
    split; [exact Hb | split; [exact Hw |]]. intros cstr' f' e' Hsof'.
    destruct (process_buff_cstr_fed cstr' e'
                (set_in_buf f' (state_of (process_buff_cstr cstr e s))))
      as [H | [h H]]; [left; exact H | right; exists h].
    rewrite H. cbn [set_in_buf m_in_buf m_speech_buf sof]. rewrite Hb, Hsof'.
    reflexivity.
  - intros Hm Hok. pose proof (vad_keeps_buf_status e s Hm Hok) as Hvad.
    revert Hvad. by_cstr cstr e s; intros Hvad; auto.
    + apply andb_prop in Hsof. destruct Hsof as [Hsof _].
      apply andb_prop in Hsof. destruct Hsof as [Hsof _].
      unfold buf_status_ok, start_of. now rewrite Hsof.
    + destruct Hres as [Hr | [w Hr]].
      * destruct (Hret Hr) as [Hb _].
        unfold buf_status_ok. now rewrite Hb.
      * destruct Hnot as (Hb & Hs & _); [rewrite Hr; discriminate |].
        unfold buf_status_ok in *. rewrite Hb.
        rewrite Hfb, Hfs in Hvad.
        destruct Hs as [-> | ->]; [exact Hvad |].
        cbn [status_eqb]. now rewrite orb_true_r.
Qed.

Lemma speech_buf_cleared_after_decode_witness :
  m_speech_buf (state_of (process_buff_cstr (Some "hello") (env_ok [1%Z])
                            engine_mid_utterance)) = []
  /\ m_speech_buf (state_of (process_buff_cstr None (env_ok [1%Z])
                               engine_mid_utterance)) = [1%Z]
  /\ buf_status_ok (state_of (process_buff_cstr None (env_ok [1%Z])
                                engine_mid_utterance)) = true.
Proof.
  split; [| split].
  - exact (proj1 (proj1 (speech_buf_cleared_after_decode
                           (Some "hello") (env_ok [1%Z]) engine_mid_utterance)
                        false eq_refl eq_refl)).
  - exact (proj1 (proj1 (proj2 (proj2 (speech_buf_cleared_after_decode
                                         None (env_ok [1%Z])
                                         engine_mid_utterance)))
                        false null_string_error eq_refl eq_refl)).
  - exact (proj2 (proj2 (proj2 (speech_buf_cleared_after_decode
                                  None (env_ok [1%Z]) engine_mid_utterance)))
                 eq_refl eq_refl).
Defined.

(** The backend answers an intermediate decode with a null string: the
    step throws after the feed and keeps the buffer, and the next step
    feeds the same samples to the same stream again. *)
Example samples_fed_again_after_null_answer :
  let thrown := process_buff_cstr None (env_ok [2%Z]) engine_speaking in
  let next := process_buff_cstr (Some "hi") (env_ok [3%Z])
                (set_in_buf silent_frame (state_of thrown)) in
  logged_final (trace_of thrown) = Some false
  /\ result_of thrown = Throw null_string_error
  /\ fed (trace_of thrown) = [(Some 7%N, [2%Z])]
  /\ m_speech_buf (state_of thrown) = [2%Z]
  /\ fed (trace_of next) = [(Some 7%N, [2%Z; 3%Z])]
  /\ m_speech_buf (state_of next) = [].
Proof. repeat split. Qed.

(** X7. Within one step the backend is asked to create a stream at most
    once and to decode at most once, and it is fed as many times as it
    is asked to decode.  A string that the decode call returned is
    handed back to [STT_FreeString], once, and nothing else is; a null
    answer is not handed back: a step that made a decode call runs to
    its end exactly when the answer was not null. *)
Theorem backend_asked_at_most_once cstr e s :
  let out := process_buff_cstr cstr e s in
  creates (trace_of out) <= 1
  /\ decode_calls (trace_of out) <= 1
  /\ length (fed (trace_of out)) = decode_calls (trace_of out)
  /\ freed_strings (trace_of out)
     = match cstr with
       | Some r => repeat r (decode_calls (trace_of out))
       | None => []
       end
  /\ (decode_calls (trace_of out) = 1 ->
      (result_of out = Ret wait_for_samples <-> is_set cstr = true)).
Proof.
  cbv zeta.
  assert (Hone : forall b : bool, (if b then 1 else 0) <= 1)
    by (intros []; lia).
  by_cstr cstr e s; rewrite ?Nat.add_0_r.
  - destruct cstr; cbn [repeat];
      intuition (try apply Hone; try lia; try discriminate).
  - destruct cstr; cbn [repeat];
      intuition (try apply Hone; try lia; try discriminate).
  - destruct Hcre as [Hle Hlive]. destruct Hdec as [Hdle Hdfed].
    split; [| split; [exact Hdle | split; [exact Hdfed | split]]].
    + destruct (sof (m_in_buf s)) eqn:Hsf; cbn [andb]; [| lia].
      destruct (is_set (m_ds_model s)) eqn:Hmo; [| lia].
      unfold sof_throws in Hsof. rewrite Hsf, Hmo in Hsof. cbn in Hsof.
      unfold create_fails in Hsof. apply orb_false_iff in Hsof.
      destruct Hsof as [_ Hh]. apply negb_false_iff in Hh.
      rewrite (Hlive Hh). lia.
    + exact Hfree.
    + intros Hd. split.
      * intros Hr. apply (proj2 (Hret Hr) Hd).
      * intros Hc. destruct Hres as [Hr | [w Hr]]; [exact Hr |].
        destruct (Hthr w Hr) as [(_ & _ & H0) | (_ & Hn & _)].
        -- rewrite H0 in Hd. discriminate.
        -- rewrite Hn in Hc. discriminate.
  - destruct cstr; cbn [repeat];
      intuition (try apply Hone; try lia; try discriminate).
Qed.

Lemma backend_asked_at_most_once_witness :
  freed_strings (trace_of (process_buff_cstr (Some "hello") (env_ok [1%Z])
                             engine_mid_utterance)) = ["hello"]
  /\ result_of (process_buff_cstr (Some "hello") (env_ok [1%Z])
                  engine_mid_utterance) = Ret wait_for_samples.
Proof.
  destruct (backend_asked_at_most_once (Some "hello") (env_ok [1%Z])
              engine_mid_utterance) as (_ & _ & _ & Hf & Hr).
  split; [exact Hf | exact (proj2 (Hr eq_refl) eq_refl)].
Defined.

(** X11. An intermediate decode does not end the session: with a live
    stream it feeds the buffer to that stream, neither finishes nor
    frees nor creates a stream, and leaves the same stream live, so a
    second intermediate decode feeds the same stream; this also holds of
    a decode that throws on a null answer.  It returns normally exactly
    when the answer of the backend is not null. *)
Theorem intermediate_decode_keeps_stream cstr buf e s h :
  m_ds_stream s = Some h ->
  let out := decode_speech_cstr cstr buf false e s in
  (result_of out = Ret tt <-> is_set cstr = true)
  /\ m_ds_stream (state_of out) = Some h
  /\ fed (trace_of out) = [(Some h, buf)]
  /\ frees (trace_of out) = []
  /\ creates (trace_of out) = 0
  /\ (forall x, ~ In (STT_FinishStream x) (trace_of out))
  /\ forall cstr' buf' e',
      fed (trace_of (decode_speech_cstr cstr' buf' false e' (state_of out)))
      = [(Some h, buf')].
Proof.
  intros Hs. cbv zeta.
  assert (Hone : forall c b e0 s0,
             m_ds_stream s0 = Some h ->
             let out := decode_speech_cstr c b false e0 s0 in
             (result_of out = Ret tt <-> is_set c = true)
             /\ m_ds_stream (state_of out) = Some h
             /\ fed (trace_of out) = [(Some h, b)]
             /\ frees (trace_of out) = []
             /\ creates (trace_of out) = 0
             /\ forall x, ~ In (STT_FinishStream x) (trace_of out)).
  { clear. intros c b e0 s0 Hs. cbv zeta.
    rewrite (@decode_speech_cstr_live c b false e0 s0 h Hs). cbv zeta.
    unfold result_of, state_of, trace_of.
    destruct c as [r|]; cbn [fst snd is_set].
    - destruct (opt_neq (m_intermediate_text s0) r);
        cbn; rewrite ?Hs; repeat split; intros; intuition discriminate.
    - cbn; rewrite ?Hs; repeat split; intros; intuition discriminate. }
  destruct (Hone cstr buf e s Hs) as (H1 & H2 & H3 & H4 & H5 & H6).
  repeat split; try tauto; auto.
  intros cstr' buf' e'. exact (proj1 (proj2 (proj2 (Hone cstr' buf' e' _ H2)))).
Qed.

Lemma intermediate_decode_keeps_stream_witness :
  m_ds_stream (state_of (decode_speech_cstr None [1%Z] false (env_ok [])
                           engine_mid_utterance)) = Some 7%N
  /\ result_of (decode_speech_cstr (Some "hello") [1%Z] false (env_ok [])
                  engine_mid_utterance) = Ret tt.
Proof.
  split.
  - exact (proj1 (proj2 (@intermediate_decode_keeps_stream
                           None [1%Z] (env_ok []) engine_mid_utterance 7%N
                           eq_refl))).
  - exact (proj2 (proj1 (@intermediate_decode_keeps_stream
                           (Some "hello") [1%Z] (env_ok [])
                           engine_mid_utterance 7%N eq_refl)) eq_refl).
Defined.

(** X18. A step that signals no flush hands at most one intermediate
    text to the host; a text handed over is the string that the backend
    decoded and the intermediate text that the engine holds when the
    step ends, and a step that hands over none leaves the intermediate
    text as it was. *)
Theorem text_changes_with_callback cstr e s :
  flushes (trace_of (process_buff_cstr cstr e s)) = [] ->
  length (texts (trace_of (process_buff_cstr cstr e s))) <= 1
  /\ (forall t, In t (texts (trace_of (process_buff_cstr cstr e s))) ->
                cstr = Some t
                /\ m_intermediate_text (state_of (process_buff_cstr cstr e s))
                   = Some t)
  /\ (texts (trace_of (process_buff_cstr cstr e s)) = [] ->
      m_intermediate_text (state_of (process_buff_cstr cstr e s))
      = m_intermediate_text s).
Proof.
  destruct (start_of_fields e s) as (_ & Hsx & _ & _ & _).
  by_cstr cstr e s; intros Hfl0; cbn [length];
    try solve [repeat split; auto; try contradiction; intros t []].
  destruct (Htext Hfl0) as (Hl & Hin & Hnil).
  split; [exact Hl | split; [exact Hin | exact Hnil]].
Qed.

Lemma text_changes_with_callback_witness :
  m_intermediate_text
    (state_of (process_buff_cstr (Some "hello") (env_ok [3%Z; 4%Z])
                 (set_in_buf first_frame (fresh_engine automatic))))
  = Some "hello".
Proof.
  exact (proj2 (proj1 (proj2 (@text_changes_with_callback
                                (Some "hello") (env_ok [3%Z; 4%Z])
                                (set_in_buf first_frame
                                            (fresh_engine automatic))
                                eq_refl))
                      "hello" (or_introl eq_refl))).
Defined.
